(** * Sensor Tower revenue tools: response cache, essential-data extractor
      and batch orchestration of [src/server.js]

    The JavaScript of the server is embedded shallowly:
    - JSON payloads are values of the inductive type [value];
    - JavaScript numbers are IEEE 754 binary64 floats ([spec_float] of the
      standard library, with [prec = 53] and [emax = 1024]);
    - a function that may throw returns a [result];
    - the module-level [sensorTowerCache] is a finite map threaded through
      a state monad together with the clock readings and the outbound
      requests issued so far;
    - what the JavaScript runtime supplies and the repository does not
      define (locale-dependent number rendering, coercions of strings and
      objects to numbers, the wording of TypeErrors) is the interface
      [Host]. *)

From Stdlib Require Import ZArith String Ascii List SpecFloat.
From stdpp Require Import base option strings list gmap pretty.

#[local] Set Warnings "-register-all".

Local Open Scope string_scope.
Local Open Scope list_scope.
Local Open Scope Z_scope.

(** ** JavaScript numbers *)

Abbreviation number := spec_float.

Definition prec : Z := 53.
Definition emax : Z := 1024.

(** The number denoted by an integer literal. *)
Definition of_Z (n : Z) : number := binary_normalize prec emax n 0 false.

Definition NaN : number := S754_nan.

(** [x / y] *)
Definition num_div (x y : number) : number := SFdiv prec emax x y.

(** [x >= y]: false as soon as one operand is NaN. *)
Definition num_ge (x y : number) : bool :=
  match SFcompare x y with
  | Some Lt | None => false
  | Some _ => true
  end.

(** [x === y] on numbers. *)
Definition num_eq (x y : number) : bool := SFeqb x y.

Definition is_nan (x : number) : bool :=
  match x with S754_nan => true | _ => false end.

(** The integer that a number is, if it is one. *)
Definition integer_value (x : number) : option Z :=
  match x with
  | S754_zero _ => Some 0
  | S754_finite s m e =>
      let sign := if s then Z.opp else fun n => n in
      if 0 <=? e then Some (sign (Z.pos m * 2 ^ e))
      else if Z.pos m mod 2 ^ (- e) =? 0 then Some (sign (Z.pos m / 2 ^ (- e)))
      else None
  | _ => None
  end.

(** ** JavaScript values, as [JSON.parse] builds them

    A string is the sequence of its UTF-16 code units, each below 256
    here; an object is the list of its own properties in insertion
    order. [VUndef] is what a read of a missing property gives. *)

Inductive value :=
| VUndef
| VNull
| VBool (b : bool)
| VNum (x : number)
| VStr (s : string)
| VArr (items : list value)
| VObj (props : list (string * value)).

(** A thrown [Error] object: the constructor name and the message. *)
Record JsError := mkError { err_name : string; err_message : string }.

Definition Error (msg : string) : JsError := mkError "Error" msg.
Definition TypeError (msg : string) : JsError := mkError "TypeError" msg.

(** Completion of a computation that returns or throws. *)
Inductive result (A : Type) :=
| Ok (a : A)
| Throw (e : JsError).
Arguments Ok {A} a.
Arguments Throw {A} e.

#[global] Instance result_ret : MRet result := fun A a => Ok a.
#[global] Instance result_bind : MBind result := fun A B f m =>
  match m with
  | Ok a => f a
  | Throw e => Throw e
  end.

(** [try { body } catch (error) { handler }] *)
Definition try_catch {A} (body : result A) (handler : JsError -> result A) : result A :=
  match body with
  | Ok a => Ok a
  | Throw e => handler e
  end.

(** ToBoolean *)
Definition truthy (v : value) : bool :=
  match v with
  | VUndef | VNull => false
  | VBool b => b
  | VNum (S754_zero _) | VNum S754_nan => false
  | VNum _ => true
  | VStr s => negb (String.eqb s "")
  | VArr _ | VObj _ => true
  end.

Definition nullish (v : value) : bool :=
  match v with
  | VUndef | VNull => true
  | _ => false
  end.

(** [a || b] *)
Definition or_else (a b : value) : value := if truthy a then a else b.
Infix "|||" := or_else (at level 50, left associativity).

(** Own property of an object literal or of a parsed JSON object. *)
Fixpoint lookup_prop (k : string) (props : list (string * value)) : value :=
  match props with
  | [] => VUndef
  | (k', v) :: rest => if String.eqb k' k then v else lookup_prop k rest
  end.

Definition string_length (s : string) : Z := Z.of_nat (String.length s).

(** [v[k]] for a value [v] that is neither null nor undefined and one of
    the property names that the source reads. The methods of the
    prototypes ([slice], [map]) are not data: they are reached through
    [call_slice] and [call_map] below. *)
Definition get (v : value) (k : string) : value :=
  match v with
  | VObj props => lookup_prop k props
  | VArr items => if String.eqb k "length" then VNum (of_Z (Z.of_nat (length items))) else VUndef
  | VStr s => if String.eqb k "length" then VNum (of_Z (string_length s)) else VUndef
  | _ => VUndef
  end.

(** [v[0]] for a value [v] that is neither null nor undefined. *)
Definition get0 (v : value) : value :=
  match v with
  | VObj props => lookup_prop "0" props
  | VArr items => match items with x :: _ => x | [] => VUndef end
  | VStr (String c _) => VStr (String c "")
  | _ => VUndef
  end.

(** [v?.k] and [v?.[0]] *)
Definition opt_get (v : value) (k : string) : value :=
  if nullish v then VUndef else get v k.
Definition opt_get0 (v : value) : value :=
  if nullish v then VUndef else get0 v.

(** [needle] occurs in [s]: [s.includes(needle)] *)
Fixpoint includes (needle s : string) : bool :=
  if String.prefix needle s then true
  else match s with
       | EmptyString => false
       | String _ s' => includes needle s'
       end.

(** ** The essential record

    One record per object literal of [extractEssentialRevenueData]. The
    fields keep the property names of the source, but for [id], [name] and
    [platform] of [app_info], which are [app_info_id], [app_info_name] and
    [app_info_platform] here, and for [name], [rating] and [price] of a
    competitor, which are prefixed with [competitor_]. *)

Record AppInfo := mkAppInfo {
  app_info_id : value;
  app_info_name : value;
  publisher : value;
  app_info_platform : string;
  category : value;
  content_rating : value;
  current_version : value
}.

Record RevenueMetrics := mkRevenueMetrics {
  last_month_revenue : value;
  last_month_downloads : value;
  revenue_currency : value;
  revenue_formatted : string
}.

(** What [extractCategoryRankings] returns: the empty object [{}] or an
    object with the three rankings. *)
Inductive CategoryRankings :=
| NoRankings
| Rankings (top_free top_grossing top_paid : value).

Record MarketPosition := mkMarketPosition {
  overall_rating : value;
  rating_count : value;
  top_countries : value;
  category_rankings : CategoryRankings
}.

Record Monetization := mkMonetization {
  price : value;
  has_in_app_purchases : value;
  top_iap_prices : list value
}.

Record Competitor := mkCompetitor {
  competitor_name : value;
  competitor_rating : value;
  competitor_price : value
}.

Record CompetitiveAnalysis := mkCompetitiveAnalysis {
  related_apps_count : value;
  top_competitors : list Competitor
}.

(** [competitive_analysis] is [None] once the handler has deleted it. *)
Record Essential := mkEssential {
  app_info : AppInfo;
  revenue_metrics : RevenueMetrics;
  market_position : MarketPosition;
  monetization : Monetization;
  competitive_analysis : option CompetitiveAnalysis
}.

(** What [extractEssentialRevenueData] returns: [null], the essential
    record, or the object [{ error, raw_data_available }] of its handler. *)
Inductive Extracted :=
| ExNull
| ExEssential (e : Essential)
| ExDegraded (error : string) (raw_data_available : bool).

(** *** [Set] semantics for [[...new Set(prices)]] *)

(** SameValueZero. Two objects are the same only when they are one
    object; [JSON.parse] never returns one object at two places, so the
    objects and arrays met in a payload are pairwise different. *)
Definition same_value_zero (a b : value) : bool :=
  match a, b with
  | VUndef, VUndef | VNull, VNull => true
  | VBool x, VBool y => Bool.eqb x y
  | VNum x, VNum y => (is_nan x && is_nan y) || num_eq x y
  | VStr x, VStr y => String.eqb x y
  | _, _ => false
  end.

(** [Set.prototype.add] stores [-0] as [+0]. *)
Definition set_key (v : value) : value :=
  match v with
  | VNum (S754_zero true) => VNum (S754_zero false)
  | _ => v
  end.

Definition set_has (s : list value) (v : value) : bool :=
  existsb (fun e => same_value_zero e v) s.

(** The elements of a set are kept in insertion order. *)
Definition set_add (s : list value) (v : value) : list value :=
  if set_has s (set_key v) then s else s ++ [set_key v].

(** [[...new Set(l)]] *)
Definition Set_of (l : list value) : list value := fold_left set_add l [].

(** ** The response cache and the world around it *)

(** An entry of [sensorTowerCache]. Timestamps are the integers that
    [Date.now()] returns (milliseconds). *)
Record CacheEntry := mkEntry { data : value; timestamp : Z }.

(** 30 days in milliseconds *)
Definition CACHE_DURATION : Z := 30 * 24 * 60 * 60 * 1000.

(** The arguments of [fetch]. *)
Record Request := mkRequest { url : string; method : string; user_agent : string }.

(** The part of a [Response] that the code reads. [json] is the
    completion of [response.json()]: the parsed body, or the error thrown
    on a body that is no JSON. *)
Record Response := mkResponse { status : Z; statusText : string; json : result value }.

(** [response.ok]: the status is in the range 200-299. *)
Definition ok (r : Response) : bool := (200 <=? status r) && (status r <=? 299).

(** The environment of a run: the successive readings of [Date.now()] and
    the settlement of each outbound request, numbered from 0 (a [Throw] is
    a rejected promise: a network failure). *)
Record Env := mkEnv {
  clock : nat -> Z;
  network : nat -> Request -> result Response
}.

(** The mutable state: the cache, the number of clock readings taken and
    the outbound requests issued, oldest first. *)
Record World := mkWorld {
  sensorTowerCache : gmap string CacheEntry;
  clock_reads : nat;
  requests : list Request
}.

(** Computations that read and write the world and return or throw. A
    call runs to its end before the next one starts: the interleaving of
    concurrent calls at an [await] is not modelled. *)
Definition M (A : Type) : Type := World -> result A * World.

#[global] Instance M_ret : MRet M := fun A a w => (Ok a, w).
#[global] Instance M_bind : MBind M := fun A B f m w =>
  match m w with
  | (Ok a, w') => f a w'
  | (Throw e, w') => (Throw e, w')
  end.

Definition throw {A} (e : JsError) : M A := fun w => (Throw e, w).

Definition lift {A} (r : result A) : M A := fun w => (r, w).

Definition try_catchM {A} (body : M A) (handler : JsError -> M A) : M A := fun w =>
  match body w with
  | (Ok a, w') => (Ok a, w')
  | (Throw e, w') => handler e w'
  end.

Definition cache_get (k : string) : M (option CacheEntry) := fun w =>
  (Ok (sensorTowerCache w !! k), w).

Definition cache_set (k : string) (e : CacheEntry) : M unit := fun w =>
  (Ok tt, mkWorld (<[k := e]> (sensorTowerCache w)) (clock_reads w) (requests w)).

(** ** The results of a batch *)

(** An element of [results]: [{ app_id, success: true, data }] or
    [{ app_id, success: false, error }] ([package_name] for [app_id] in
    the Android tool). *)
Inductive BatchEntry (Id : Type) :=
| EntryOk (identifier : Id) (data : Extracted)
| EntryFailed (identifier : Id) (error : string).
Arguments EntryOk {Id} identifier data.
Arguments EntryFailed {Id} identifier error.

Definition identifier {Id} (r : BatchEntry Id) : Id :=
  match r with
  | EntryOk i _ | EntryFailed i _ => i
  end.

Definition success {Id} (r : BatchEntry Id) : bool :=
  match r with
  | EntryOk _ _ => true
  | EntryFailed _ _ => false
  end.

Record Summary (Id : Type) := mkSummary {
  total_apps : nat;
  successful : nat;
  failed : nat;
  apps : list (BatchEntry Id)
}.
Arguments mkSummary {Id}.
Arguments total_apps {Id}.
Arguments successful {Id}.
Arguments failed {Id}.
Arguments apps {Id}.

(** The object that a tool serialises into its text content: the summary,
    or [{ error, platform }] from the outer handler. *)
Inductive ToolOutput (Id : Type) :=
| SummaryContent (s : Summary Id)
| ErrorContent (error : string) (platform : string).
Arguments SummaryContent {Id} s.
Arguments ErrorContent {Id} error platform.

(** The argument [appIds] or [packageNames]: one identifier or an array. *)
Inductive OneOrMany (Id : Type) :=
| One (i : Id)
| Many (l : list Id).
Arguments One {Id} i.
Arguments Many {Id} l.

(** What the two revenue tools differ in. *)
Record Platform (Id : Type) := mkPlatform {
  platform_name : string;
  platform_label : string;
  endpoint_of : Id -> string;
  cacheKey_of : Id -> string;
  id_value : Id -> value
}.
Arguments platform_name {Id}.
Arguments platform_label {Id}.
Arguments endpoint_of {Id}.
Arguments cacheKey_of {Id}.
Arguments id_value {Id}.

Definition android : Platform string := {|
  platform_name := "android";
  platform_label := "Android";
  endpoint_of := fun packageName =>
    "https://app.sensortower.com/api/android/apps/" +:+ packageName;
  cacheKey_of := fun packageName => "android_" +:+ packageName;
  id_value := fun packageName => VStr packageName
|}.

(** A [country] argument is truthy when it is a non-empty string. *)
Definition given (country : option string) : option string :=
  match country with
  | Some c => if String.eqb c "" then None else Some c
  | None => None
  end.

(** [country ? `${cacheKey}_${country}` : cacheKey] *)
Definition finalCacheKey (cacheKey : string) (country : option string) : string :=
  match given country with
  | Some c => cacheKey +:+ "_" +:+ c
  | None => cacheKey
  end.

(** [country ? `${endpoint}?country=${country}` : endpoint] *)
Definition finalEndpoint (endpoint : string) (country : option string) : string :=
  match given country with
  | Some c => endpoint +:+ "?country=" +:+ c
  | None => endpoint
  end.

(** The request of [callSensorTowerAPI]. *)
Definition request_of (endpoint : string) (country : option string) : Request := {|
  url := finalEndpoint endpoint country;
  method := "GET";
  user_agent := "Mozilla/5.0 (Windows NT 10.0; Win64; x64) AppleWebKit/537.36"
|}.

Definition rate_limit_message : string := "Rate limit exceeded. Please try again later.".

(** ** What the runtime supplies *)

Class Host := {
  (** [x.toLocaleString()] under the default locale of the process *)
  toLocaleString : number -> string;
  (** Number::toString, used by [toFixed] for non-finite and huge numbers *)
  Number_toString : number -> string;
  (** ToNumber on a string, an array or an object (it throws a TypeError
      on an object whose [valueOf] and [toString] are not callable) *)
  ToNumber_object : value -> result number;
  (** message of the TypeError of a property read on null or undefined *)
  msg_cannot_read : value -> string -> string;
  (** message of the TypeError of a call of something that is no function;
      the argument is the source text of the callee *)
  msg_not_a_function : string -> string
}.

Section WithHost.
Context {host : Host}.

(** [v.k]: throws on null and undefined. *)
Definition dot (v : value) (k : string) : result value :=
  if nullish v then Throw (TypeError (msg_cannot_read v k)) else Ok (get v k).

(** ToNumber *)
Definition ToNumber (v : value) : result number :=
  match v with
  | VUndef => Ok NaN
  | VNull => Ok (S754_zero false)
  | VBool true => Ok (of_Z 1)
  | VBool false => Ok (S754_zero false)
  | VNum x => Ok x
  | VStr _ | VArr _ | VObj _ => ToNumber_object v
  end.

(** *** Numbers in template literals *)

(** [`${x}`] for a number [x], which is Number::toString: the decimal
    digits of an integer of magnitude below 10^21, with a minus sign
    when it is negative and [0] for both zeros; the rendering of the
    runtime for every other number (fractions, exponents from 1e21 on,
    [Infinity], [NaN]). *)
Definition ToString_number (x : number) : string :=
  match integer_value x with
  | Some n => if Z.abs n <? 10 ^ 21 then pretty n else Number_toString x
  | None => Number_toString x
  end.

(** The iOS tool takes its ids as numbers ([z.number()]) and prints
    them in template literals. *)
Definition ios : Platform number := {|
  platform_name := "ios";
  platform_label := "iOS";
  endpoint_of := fun appId =>
    "https://app.sensortower.com/api/ios/apps/" +:+ ToString_number appId;
  cacheKey_of := fun appId => "ios_" +:+ ToString_number appId;
  id_value := fun appId => VNum appId
|}.

(** *** [Number.prototype.toFixed] *)

(** The integer [n] for which [n / 10^f - m * 2^e] is closest to zero, the
    larger one of two. *)
Definition nearest_scaled (f : nat) (m : positive) (e : Z) : Z :=
  let scaled := Z.pos m * 10 ^ Z.of_nat f in
  if 0 <=? e then scaled * 2 ^ e
  else (2 * scaled + 2 ^ (- e)) / 2 ^ (1 - e).

(** [m * 2^e >= 10^21] *)
Definition at_least_1e21 (m : positive) (e : Z) : bool :=
  if 0 <=? e then 10 ^ 21 <=? Z.pos m * 2 ^ e
  else 10 ^ 21 * 2 ^ (- e) <=? Z.pos m.

Fixpoint zeros (k : nat) : string :=
  match k with
  | O => ""
  | S k' => String "0" (zeros k')
  end.

(** The decimal digits of [n >= 0] with a point before the last [f]. *)
Definition fixed_digits (f : nat) (n : Z) : string :=
  let m := pretty n in
  let m := if (String.length m <=? f)%nat then zeros (f + 1 - String.length m) +:+ m else m in
  let k := String.length m in
  match f with
  | O => m
  | _ => substring 0 (k - f) m +:+ "." +:+ substring (k - f) f m
  end.

Definition toFixed (f : nat) (x : number) : string :=
  match x with
  | S754_nan | S754_infinity _ => Number_toString x
  | S754_zero _ => fixed_digits f 0
  | S754_finite s m e =>
      (if s then "-" else "") ++
      (if at_least_1e21 m e then Number_toString (S754_finite false m e)
       else fixed_digits f (nearest_scaled f m e))
  end.

(** ** [formatRevenue] *)

(** [!cents || cents === 0] *)
Definition no_revenue (cents : value) : bool :=
  negb (truthy cents) ||
  match cents with
  | VNum x => num_eq x (of_Z 0)
  | _ => false
  end.

Definition formatRevenue (cents : value) : result string :=
  if no_revenue cents then Ok "$0"
  else
    c ← ToNumber cents;
    let dollars := num_div c (of_Z 100) in
    if num_ge dollars (of_Z 1000000) then
      Ok ("$" +:+ toFixed 1 (num_div dollars (of_Z 1000000)) +:+ "M")
    else if num_ge dollars (of_Z 1000) then
      Ok ("$" +:+ toFixed 1 (num_div dollars (of_Z 1000)) +:+ "K")
    else
      Ok ("$" +:+ toLocaleString dollars).


(** ** Array methods *)

(** [v.slice(0, 3)] for [v] neither null nor undefined; [callee] is the
    source text of [v.slice]. Nothing but an array or a string has a
    callable [slice]: a parsed JSON object holds no function. *)
Definition call_slice (callee : string) (v : value) : result value :=
  match v with
  | VArr items => Ok (VArr (take 3 items))
  | VStr s => Ok (VStr (substring 0 3 s))
  | _ => Throw (TypeError (msg_not_a_function callee))
  end.

(** [v.map(f)] for [v] neither null nor undefined. *)
Definition call_map {B} (callee : string) (v : value) (f : value -> result B)
  : result (list B) :=
  match v with
  | VArr items => mapM f items
  | _ => Throw (TypeError (msg_not_a_function callee))
  end.

(** ** [extractCategoryRankings] *)

Definition primary_category (deviceRankings : value) (chart : string) : value :=
  opt_get0 (opt_get (opt_get deviceRankings chart) "primary_categories") ||| VNull.

Definition extractCategoryRankings (rankings : value) (platform : string)
  : result CategoryRankings :=
  if negb (truthy rankings) then Ok NoRankings
  else
    try_catch
      (let deviceType := if String.eqb platform "ios" then "iphone" else "phone" in
       bucket ← dot rankings deviceType;
       let deviceRankings := bucket ||| rankings in
       Ok (Rankings (primary_category deviceRankings "top_free")
                    (primary_category deviceRankings "top_grossing")
                    (primary_category deviceRankings "top_paid")))
      (fun error => Ok NoRankings).

(** ** [extractTopIAPPrices] *)

Definition extractTopIAPPrices (iapData : value) : result (list value) :=
  if negb (truthy iapData) then Ok []
  else
    try_catch
      (US ← dot iapData "US";
       prices ←
         (if truthy US then
            first3 ← call_slice "iapData.US.slice" US;
            call_map "iapData.US.slice(...).map" first3 (fun iap => dot iap "price")
          else Ok []);
       Ok (Set_of prices))
      (fun error => Ok []).

(** ** [extractEssentialRevenueData] *)

(** The callback of [related_apps.slice(0, 3).map]. *)
Definition competitor_of (app : value) : result Competitor :=
  name ← dot app "name";
  title ← dot app "title";
  rating ← dot app "rating";
  score ← dot app "score";
  price ← dot app "price";
  priceText ← dot app "priceText";
  Ok (mkCompetitor (name ||| title) (rating ||| score)
        (opt_get price "string_value" ||| priceText ||| VStr "Free")).

(** [rawData.top_countries?.slice(0, 3) || []] *)
Definition top_countries_of (top_countries : value) : result value :=
  sliced ← (if nullish top_countries then Ok VUndef
            else call_slice "rawData.top_countries?.slice" top_countries);
  Ok (sliced ||| VArr []).

(** [rawData.related_apps?.slice(0, 3)?.map(...) || []]: the array that
    [map] returns is truthy, so [[]] stands for undefined only. *)
Definition top_competitors_of (related_apps : value) : result (list Competitor) :=
  if nullish related_apps then Ok []
  else
    sliced ← call_slice "rawData.related_apps?.slice" related_apps;
    if nullish sliced then Ok []
    else call_map "rawData.related_apps?.slice(...)?.map" sliced competitor_of.

Definition essential_of (rawData : value) (platform : string) (identifier : value)
  : result Essential :=
  app_id ← dot rawData "app_id";
  package_name ← dot rawData "package_name";
  name ← dot rawData "name";
  title ← dot rawData "title";
  publisher_name ← dot rawData "publisher_name";
  developer ← dot rawData "developer";
  categories ← dot rawData "categories";
  content_rating ← dot rawData "content_rating";
  current_version ← dot rawData "current_version";
  revenue ← dot rawData "worldwide_last_month_revenue";
  downloads ← dot rawData "worldwide_last_month_downloads";
  revenue_formatted ← formatRevenue (opt_get revenue "value" ||| VNum (of_Z 0));
  rating ← dot rawData "rating";
  score ← dot rawData "score";
  rating_count ← dot rawData "rating_count";
  reviews ← dot rawData "reviews";
  top_countries ← dot rawData "top_countries";
  top_countries ← top_countries_of top_countries;
  rankings ← dot rawData "category_rankings";
  category_rankings ← extractCategoryRankings rankings platform;
  price ← dot rawData "price";
  priceText ← dot rawData "priceText";
  has_in_app_purchases ← dot rawData "has_in_app_purchases";
  offersIAP ← dot rawData "offersIAP";
  top_in_app_purchases ← dot rawData "top_in_app_purchases";
  top_iap_prices ← extractTopIAPPrices top_in_app_purchases;
  related_apps ← dot rawData "related_apps";
  top_competitors ← top_competitors_of related_apps;
  Ok {|
    app_info := {|
      app_info_id := if String.eqb platform "ios" then app_id
                    else package_name ||| identifier;
      app_info_name := name ||| title;
      publisher := publisher_name ||| developer;
      app_info_platform := platform;
      category := opt_get (opt_get0 categories) "name" ||| VStr "Unknown";
      content_rating := content_rating;
      current_version := current_version
    |};
    revenue_metrics := {|
      last_month_revenue := opt_get revenue "value" ||| VNum (of_Z 0);
      last_month_downloads := opt_get downloads "value" ||| VNum (of_Z 0);
      revenue_currency := opt_get revenue "currency" ||| VStr "USD";
      revenue_formatted := revenue_formatted
    |};
    market_position := {|
      overall_rating := rating ||| score;
      rating_count := rating_count ||| reviews;
      top_countries := top_countries;
      category_rankings := category_rankings
    |};
    monetization := {|
      price := opt_get price "string_value" ||| priceText ||| VStr "Free";
      has_in_app_purchases :=
        has_in_app_purchases ||| offersIAP ||| VBool false;
      top_iap_prices := top_iap_prices
    |};
    competitive_analysis := Some {|
      related_apps_count :=
        opt_get related_apps "length" ||| VNum (of_Z 0);
      top_competitors := top_competitors
    |}
  |}.

Definition extractEssentialRevenueData (rawData : value) (platform : string)
    (identifier : value) : result Extracted :=
  if negb (truthy rawData) then Ok ExNull
  else
    try_catch
      (essential ← essential_of rawData platform identifier;
       Ok (ExEssential essential))
      (fun error =>
         Ok (ExDegraded ("Failed to extract data: " +:+ err_message error)
                        (truthy rawData))).

(** ** [callSensorTowerAPI] *)

Section WithEnv.
Context (env : Env).

(** [Date.now()] *)
Definition Date_now : M Z := fun w =>
  (Ok (clock env (clock_reads w)),
   mkWorld (sensorTowerCache w) (S (clock_reads w)) (requests w)).

(** [await fetch(url, { method, headers })] *)
Definition fetch (req : Request) : M Response := fun w =>
  (network env (length (requests w)) req,
   mkWorld (sensorTowerCache w) (clock_reads w) (requests w ++ [req])).

(** [cached && Date.now() - cached.timestamp < CACHE_DURATION] *)
Definition unexpired (cached : option CacheEntry) : M bool :=
  match cached with
  | None => mret false
  | Some entry => now ← Date_now; mret (now - timestamp entry <? CACHE_DURATION)
  end.

Definition callSensorTowerAPI (endpoint cacheKey : string) (country : option string)
  : M value :=
  let key := finalCacheKey cacheKey country in
  cached ← cache_get key;
  hit ← unexpired cached;
  match cached, hit with
  | Some entry, true => mret (data entry)
  | _, _ =>
    try_catchM
      (response ← fetch (request_of endpoint country);
       if status response =? 429 then throw (Error rate_limit_message)
       else if negb (ok response) then
         throw (Error ("HTTP " +:+ pretty (status response) +:+ ": " +:+ statusText response))
       else
         data ← lift (json response);
         now ← Date_now;
         _ ← cache_set key {| data := data; timestamp := now |};
         mret data)
      (fun error =>
         if includes "Rate limit" (err_message error) then throw error
         else throw (Error ("Failed to fetch data from Sensor Tower: " +:+ err_message error)))
  end.

(** ** The revenue tools *)

(** [if (!includeCompetitors && essentialData.competitive_analysis)
       delete essentialData.competitive_analysis;] *)
Definition drop_competitors (includeCompetitors : bool) (essentialData : Extracted)
  : result Extracted :=
  if includeCompetitors then Ok essentialData
  else
    match essentialData with
    | ExNull => Throw (TypeError (msg_cannot_read VNull "competitive_analysis"))
    | ExDegraded _ _ => Ok essentialData
    | ExEssential e =>
        Ok (ExEssential {| app_info := app_info e;
                           revenue_metrics := revenue_metrics e;
                           market_position := market_position e;
                           monetization := monetization e;
                           competitive_analysis := None |})
    end.

Section Tool.
Context {Id : Type} (p : Platform Id).

(** The body of the loop: the [try] with its [catch]; it returns the
    element pushed on [results]. *)
Definition process_one (includeCompetitors : bool) (country : option string) (i : Id)
  : M (BatchEntry Id) :=
  try_catchM
    (rawData ← callSensorTowerAPI (endpoint_of p i) (cacheKey_of p i) country;
     essentialData ← lift (extractEssentialRevenueData rawData (platform_name p) (id_value p i));
     essentialData ← lift (drop_competitors includeCompetitors essentialData);
     mret (EntryOk i essentialData))
    (fun error => mret (EntryFailed i (err_message error))).

(** [for (const appId of ids) { ... results.push(...) }] *)
Fixpoint for_of (includeCompetitors : bool) (country : option string)
    (ids : list Id) (results : list (BatchEntry Id)) : M (list (BatchEntry Id)) :=
  match ids with
  | [] => mret results
  | i :: rest =>
      r ← process_one includeCompetitors country i;
      for_of includeCompetitors country rest (results ++ [r])
  end.

(** [Array.isArray(appIds) ? appIds : [appIds]] *)
Definition as_array (appIds : OneOrMany Id) : list Id :=
  match appIds with
  | One i => [i]
  | Many l => l
  end.

(** The handler of [sensor-tower-ios-revenue] and of
    [sensor-tower-android-revenue]; [JSON.stringify] of the returned
    object is left out. *)
Definition revenue_tool (appIds : OneOrMany Id) (includeCompetitors : bool)
    (country : option string) : M (ToolOutput Id) :=
  try_catchM
    (let ids := as_array appIds in
     results ← for_of includeCompetitors country ids [];
     mret (SummaryContent {|
       total_apps := length ids;
       successful := length (filter (fun r => success r = true) results);
       failed := length (filter (fun r => success r = false) results);
       apps := results |}))
    (fun error => mret (ErrorContent (err_message error) (platform_label p))).

End Tool.
End WithEnv.
End WithHost.

(** * Vocabulary of the properties *)

Section CacheVocabulary.
Context (env : Env).

(** The error that leaves the [catch] of [callSensorTowerAPI]. *)
Definition rethrown (error : JsError) : JsError :=
  if includes "Rate limit" (err_message error) then error
  else Error ("Failed to fetch data from Sensor Tower: " +:+ err_message error).

(** The completion of the [try] block for a settled request: the parsed
    payload, or the error thrown on the way. *)
Definition settle (reply : result Response) : result value :=
  match reply with
  | Throw e => Throw e
  | Ok response =>
      if status response =? 429 then Throw (Error rate_limit_message)
      else if negb (ok response) then
        Throw (Error ("HTTP " +:+ pretty (status response) +:+ ": " +:+ statusText response))
      else json response
  end.

(** The world after the cache check: a clock reading is taken when an
    entry is found. *)
Definition checked (w : World) (key : string) : World :=
  match sensorTowerCache w !! key with
  | Some _ => mkWorld (sensorTowerCache w) (S (clock_reads w)) (requests w)
  | None => w
  end.

(** The entry under [key] is present and younger than [CACHE_DURATION] at
    the next clock reading. *)
Definition valid_entry (w : World) (key : string) : option CacheEntry :=
  match sensorTowerCache w !! key with
  | Some entry =>
      if clock env (clock_reads w) - timestamp entry <? CACHE_DURATION
      then Some entry else None
  | None => None
  end.

End CacheVocabulary.

Section BatchVocabulary.
Context {host : Host} (env : Env) {Id : Type} (p : Platform Id).
Context (includeCompetitors : bool) (country : option string).

(** The [try] block of the loop body: fetch, extract, drop competitors. *)
Definition attempt (i : Id) : M Extracted :=
  rawData ← callSensorTowerAPI env (endpoint_of p i) (cacheKey_of p i) country;
  essentialData ← lift (extractEssentialRevenueData rawData (platform_name p) (id_value p i));
  lift (drop_competitors includeCompetitors essentialData).

(** The element of [results] for a completion of the [try] block. *)
Definition recorded (i : Id) (r : result Extracted) : BatchEntry Id :=
  match r with
  | Ok d => EntryOk i d
  | Throw e => EntryFailed i (err_message e)
  end.

(** The world after the loop has run over [ids]. *)
Definition world_after (ids : list Id) (w : World) : World :=
  (for_of env p includeCompetitors country ids [] w).2.

End BatchVocabulary.

(** No two elements of [s], the earlier one first, are the same value. *)
Definition distinct (s : list value) : Prop :=
  forall i j a b, (i < j)%nat -> s !! i = Some a -> s !! j = Some b ->
    same_value_zero a b = false.

(** What the callback of [map] returns for a competitor that is neither
    null nor undefined. *)
Definition competitor (app : value) : Competitor := {|
  competitor_name := get app "name" ||| get app "title";
  competitor_rating := get app "rating" ||| get app "score";
  competitor_price :=
    opt_get (get app "price") "string_value" ||| get app "priceText" ||| VStr "Free"
|}.

(** [r[chart]] for the object [r] that [extractCategoryRankings] returns. *)
Definition ranking (r : CategoryRankings) (chart : string) : value :=
  match r with
  | NoRankings => VUndef
  | Rankings top_free top_grossing top_paid =>
      if String.eqb chart "top_free" then top_free
      else if String.eqb chart "top_grossing" then top_grossing
      else if String.eqb chart "top_paid" then top_paid
      else VUndef
  end.


(** What [finalCacheKey] appends to the base. *)
Definition key_suffix (country : option string) : string :=
  match given country with
  | Some c => "_" +:+ c
  | None => ""
  end.

(** * Sample inputs *)

(** A host for the examples, after Node.js under the [en-US] locale. Of
    [toLocaleString] the examples use the integers of magnitude below
    1000, which are rendered by their digits; the other numbers and the
    coercion of objects are not used. *)
Definition sample_host : Host := {|
  toLocaleString := fun x =>
    match integer_value x with
    | Some n => if Z.abs n <? 1000 then pretty n else ""
    | None => ""
    end;
  Number_toString := fun x =>
    match x with
    | S754_nan => "NaN"
    | S754_infinity false => "Infinity"
    | S754_infinity true => "-Infinity"
    | _ => ""
    end;
  ToNumber_object := fun _ => Ok NaN;
  msg_cannot_read := fun v k =>
    "Cannot read properties of "
    +:+ (match v with VNull => "null" | _ => "undefined" end)
    +:+ " (reading '" +:+ k +:+ "')";
  msg_not_a_function := fun callee => callee +:+ " is not a function"
|}.

(** A clock that starts after more than 30 days and advances by one
    millisecond at each reading. *)
Definition sample_clock (n : nat) : Z := 3000000000 + Z.of_nat n.

(** An environment in which the [n]-th request is settled by [reply n]. *)
Definition reply_env (reply : nat -> result Response) : Env := {|
  clock := sample_clock;
  network := fun n _ => reply n
|}.

Definition respond (status : Z) (statusText : string) (body : result value)
  : result Response :=
  Ok {| status := status; statusText := statusText; json := body |}.

Definition priced (price : string) : value := VObj [("price", VStr price)].

Definition related (name : string) : value :=
  VObj [("name", VStr name); ("rating", VNum (of_Z 4))].

(** A payload with a revenue of 2,500,000 cents, ten related apps and
    four in-app purchases, two of which have the same price. *)
Definition sample_payload : value :=
  VObj [("app_id", VNum (of_Z 1));
        ("name", VStr "Sample");
        ("worldwide_last_month_revenue",
         VObj [("value", VNum (of_Z 2500000)); ("currency", VStr "USD")]);
        ("category_rankings",
         VObj [("iphone",
                VObj [("top_free", VObj [("primary_categories", VArr [VNum (of_Z 7)])])])]);
        ("top_in_app_purchases",
         VObj [("US", VArr [priced "$0.99"; priced "$4.99"; priced "$0.99"; priced "$9.99"])]);
        ("related_apps",
         VArr [related "a"; related "b"; related "c"; related "d"; related "e";
               related "f"; related "g"; related "h"; related "i"; related "j"])].

Definition sample_endpoint : string := "https://app.sensortower.com/api/ios/apps/1".

Definition empty_world : World := mkWorld ∅ 0 [].

(** A world whose cache holds [entry] under [key]. *)
Definition cached_world (key : string) (entry : CacheEntry) : World :=
  mkWorld {[ key := entry ]} 0 [].

(** An environment in which the second request fails with status 500. *)
Definition second_fails : Env :=
  reply_env (fun n => if (n =? 1)%nat then respond 500 "Internal Server Error" (Ok VNull)
                      else respond 200 "OK" (Ok sample_payload)).

(** The double quote, for the messages of the JSON parser. *)
Definition dquote : string := String (Ascii.ascii_of_nat 34) "".

(** ** Vocabulary of the further properties *)

(** Every cached entry carries a clock reading that was taken before. *)
Definition stamped (env : Env) (w : World) : Prop :=
  forall k e, sensorTowerCache w !! k = Some e ->
    exists n, (n < clock_reads w)%nat /\ timestamp e = clock env n.

(** The readings of the clock never go back. *)
Definition monotone_clock (env : Env) : Prop :=
  forall m n, (m <= n)%nat -> clock env m <= clock env n.

(** The prefix of the wrapped errors. *)
Definition wrap_prefix : string := "Failed to fetch data from Sensor Tower: ".

Section BatchVocabulary2.
Context {host : Host} {Id : Type}.

(** What excluding the competitors makes of an element of [results] that
    was computed with the competitors included. *)
Definition stripped (r : BatchEntry Id) : BatchEntry Id :=
  match r with
  | EntryOk i d => recorded i (drop_competitors false d)
  | EntryFailed i error => EntryFailed i error
  end.

End BatchVocabulary2.

(** ** Sample inputs of the further properties *)

(** Every request is answered with the sample payload. *)
Definition served : Env := reply_env (fun _ => respond 200 "OK" (Ok sample_payload)).

(** Every request is answered with status 500. *)
Definition broken : Env :=
  reply_env (fun _ => respond 500 "Internal Server Error" (Ok VNull)).

(** Every request is answered with the JSON text [null]. *)
Definition answers_null : Env := reply_env (fun _ => respond 200 "OK" (Ok VNull)).

(** A payload whose second related app is null. *)
Definition null_competitor_payload : value :=
  VObj [("name", VStr "Sample");
        ("related_apps", VArr [related "a"; VNull; related "c"])].

(** A payload with ten related apps and three in-app purchases, the
    second of each being null. *)
Definition holed_payload : value :=
  VObj [("app_id", VNum (of_Z 1));
        ("top_in_app_purchases",
         VObj [("US", VArr [priced "$0.99"; VNull; priced "$4.99"])]);
        ("related_apps",
         VArr [related "a"; VNull; related "c"; related "d"; related "e";
               related "f"; related "g"; related "h"; related "i"; related "j"])].

(** A payload with five top countries and an Android package name. *)
Definition countries_payload : value :=
  VObj [("package_name", VStr "com.example.app");
        ("top_countries", VArr [VStr "US"; VStr "JP"; VStr "DE"; VStr "FR"; VStr "TR"])].

(** A world whose cache holds young entries for the iOS apps 1 and 2. *)
Definition warm_world : World :=
  mkWorld (<["ios_1" := mkEntry sample_payload 2999999000]>
             {[ "ios_2" := mkEntry (VObj []) 2999999000 ]}) 0 [].

(** * Tactics *)

Ltac run_M :=
  cbv [callSensorTowerAPI mbind mret M_bind M_ret throw lift try_catchM
       cache_get cache_set unexpired Date_now fetch];
  cbn [fst snd sensorTowerCache clock_reads requests].

(** The reduction tactics leave [String.append] alone. *)
Ltac simpl_append := cbv [String.append]; fold String.append.

(** * Properties *)

(** ** The cache *)

Section CacheFacts.
Context {host : Host} (env : Env).

Lemma call_hit endpoint cacheKey country w entry :
  valid_entry env w (finalCacheKey cacheKey country) = Some entry ->
  callSensorTowerAPI env endpoint cacheKey country w
  = (Ok (data entry), checked w (finalCacheKey cacheKey country)).
Proof.
  unfold valid_entry, checked. run_M.
  destruct (sensorTowerCache w !! _) as [e|] eqn:Hc; [|done].
  destruct (_ <? _) eqn:Hlt; [|done].
  intros [= ->]. reflexivity.
Qed.

Lemma call_miss endpoint cacheKey country w :
  valid_entry env w (finalCacheKey cacheKey country) = None ->
  let key := finalCacheKey cacheKey country in
  let w1 := checked w key in
  let sent := requests w ++ [request_of endpoint country] in
  callSensorTowerAPI env endpoint cacheKey country w
  = match settle (network env (length (requests w)) (request_of endpoint country)) with
    | Ok payload =>
        (Ok payload,
         mkWorld (<[key := mkEntry payload (clock env (clock_reads w1))]>
                    (sensorTowerCache w))
                 (S (clock_reads w1)) sent)
    | Throw e => (Throw (rethrown e), mkWorld (sensorTowerCache w) (clock_reads w1) sent)
    end.
Proof.
  unfold valid_entry, checked, settle, rethrown. run_M.
  intros Hv.
  destruct (sensorTowerCache w !! _) as [e|] eqn:Hc.
  - destruct (_ <? _) eqn:Hlt; [done|].
    destruct (network env _ _) as [response|err]; cbn.
    + destruct (status response =? 429); cbn; [done|].
      destruct (ok response); cbn; [|by destruct (includes _ _)].
      destruct (json response) as [payload|err]; cbn; [done|].
      by destruct (includes _ _).
    + by destruct (includes _ _).
  - destruct (network env _ _) as [response|err]; cbn.
    + destruct (status response =? 429); cbn; [done|].
      destruct (ok response); cbn; [|by destruct (includes _ _)].
      destruct (json response) as [payload|err]; cbn; [done|].
      by destruct (includes _ _).
    + by destruct (includes _ _).
Qed.

Lemma settle_success response payload :
  ok response = true -> json response = Ok payload ->
  settle (Ok response) = Ok payload.
Proof.
  intros Hok Hjson. unfold settle. rewrite Hok, Hjson.
  destruct (status response =? 429) eqn:H429; [|done].
  apply Z.eqb_eq in H429. unfold ok in Hok. rewrite H429 in Hok. done.
Qed.

(** C1 (cache TTL). With an entry stored under the final key: a call at
    a time [t] with [t - storedAt < TTL] returns the stored payload and
    issues no outbound request; a call at [t >= storedAt + TTL] issues
    exactly one outbound request whatever the stored entry is, and when
    that request succeeds the call returns the new payload and the entry
    under the key becomes the new payload with the clock reading taken
    after the response. *)
Theorem C1_cache_ttl endpoint cacheKey country w entry :
  sensorTowerCache w !! finalCacheKey cacheKey country = Some entry ->
  let key := finalCacheKey cacheKey country in
  let t := clock env (clock_reads w) in
  let out := callSensorTowerAPI env endpoint cacheKey country w in
  (t - timestamp entry < CACHE_DURATION ->
     out.1 = Ok (data entry) /\
     requests out.2 = requests w /\
     sensorTowerCache out.2 = sensorTowerCache w) /\
  (timestamp entry + CACHE_DURATION <= t ->
     requests out.2 = requests w ++ [request_of endpoint country] /\
     forall response payload,
       network env (length (requests w)) (request_of endpoint country) = Ok response ->
       ok response = true ->
       json response = Ok payload ->
       out.1 = Ok payload /\
       sensorTowerCache out.2
       = <[key := mkEntry payload (clock env (S (clock_reads w)))]> (sensorTowerCache w)).
Proof.
  intros Hc key t out. subst key t. split.
  - intros Ht. subst out.
    rewrite (call_hit _ _ _ _ entry).
    + unfold checked. rewrite Hc. done.
    + unfold valid_entry. rewrite Hc.
      destruct (Z.ltb_spec (clock env (clock_reads w) - timestamp entry) CACHE_DURATION);
        [done | lia].
  - intros Ht.
    assert (Hv : valid_entry env w (finalCacheKey cacheKey country) = None).
    { unfold valid_entry. rewrite Hc.
      destruct (Z.ltb_spec (clock env (clock_reads w) - timestamp entry) CACHE_DURATION);
        [lia | done]. }
    subst out. rewrite (call_miss _ _ _ _ Hv).
    unfold checked. rewrite Hc. cbn [clock_reads].
    split.
    + by destruct (settle _).
    + intros response payload Hnet Hok Hjson.
      by rewrite Hnet, (settle_success _ _ Hok Hjson).
Qed.

(** C10 (frame). A call changes at most the entry under its own final
    key, and a call that throws leaves the whole cache as it was. *)
Theorem C10_cache_frame endpoint cacheKey country w :
  let out := callSensorTowerAPI env endpoint cacheKey country w in
  (forall k, k <> finalCacheKey cacheKey country ->
     sensorTowerCache out.2 !! k = sensorTowerCache w !! k) /\
  (forall e, out.1 = Throw e -> sensorTowerCache out.2 = sensorTowerCache w).
Proof.
  intros out. subst out.
  destruct (valid_entry env w (finalCacheKey cacheKey country)) as [entry|] eqn:Hv.
  - rewrite (call_hit _ _ _ _ entry Hv). unfold checked.
    split; [intros k _|intros e _]; by destruct (sensorTowerCache w !! _).
  - rewrite (call_miss _ _ _ _ Hv).
    destruct (settle _); [|done]. cbn. split.
    + intros k Hk. by rewrite lookup_insert_ne.
    + intros e [=].
Qed.

(** C4 (rate limit). On a cache miss answered with status 429 the call
    throws the error made in the [try], with the rate-limit message and
    not wrapped; on a miss answered with another failing status the call
    throws an error with a different message. *)
Theorem C4_rate_limited endpoint cacheKey country w response :
  valid_entry env w (finalCacheKey cacheKey country) = None ->
  network env (length (requests w)) (request_of endpoint country) = Ok response ->
  let out := callSensorTowerAPI env endpoint cacheKey country w in
  (status response = 429 ->
     settle (Ok response) = Throw (Error rate_limit_message) /\
     out.1 = Throw (Error rate_limit_message)) /\
  (status response <> 429 -> ok response = false ->
     exists e, out.1 = Throw e /\ err_message e <> rate_limit_message).
Proof.
  intros Hv Hnet out. subst out. rewrite (call_miss _ _ _ _ Hv), Hnet.
  unfold settle. split.
  - intros ->. done.
  - intros H429 Hok. apply Z.eqb_neq in H429. rewrite H429, Hok. cbn.
    eexists; split; [done|]. unfold rethrown. cbn.
    destruct (includes _ _); cbn; discriminate.
Qed.

(** C7 as amended (upstream errors). On a cache miss, a failing status
    other than 429 makes the error [HTTP <status>: <statusText>], a
    rejected request or an unparseable body makes the error of the
    transport, and the call throws that error wrapped as
    [Failed to fetch data from Sensor Tower: <message>] unless its
    message contains [Rate limit], in which case it throws the error
    itself. *)
Theorem C7_upstream_error endpoint cacheKey country w :
  valid_entry env w (finalCacheKey cacheKey country) = None ->
  let reply := network env (length (requests w)) (request_of endpoint country) in
  let out := callSensorTowerAPI env endpoint cacheKey country w in
  let leaves (e : JsError) :=
    out.1 = Throw (if includes "Rate limit" (err_message e) then e
                   else Error ("Failed to fetch data from Sensor Tower: "
                               +:+ err_message e)) in
  (forall response, reply = Ok response ->
     status response <> 429 -> ok response = false ->
     leaves (Error ("HTTP " +:+ pretty (status response) +:+ ": "
                    +:+ statusText response))) /\
  (forall e, reply = Throw e -> leaves e) /\
  (forall response e, reply = Ok response ->
     ok response = true -> json response = Throw e -> leaves e).
Proof.
  intros Hv reply out leaves. subst out leaves reply.
  rewrite (call_miss _ _ _ _ Hv). unfold rethrown.
  split; [|split].
  - intros response -> H429 Hok. apply Z.eqb_neq in H429.
    unfold settle. by rewrite H429, Hok.
  - by intros e ->.
  - intros response e -> Hok Hjson. unfold settle. rewrite Hok, Hjson. cbn.
    destruct (status response =? 429) eqn:H429; [|done].
    apply Z.eqb_eq in H429. unfold ok in Hok. rewrite H429 in Hok. done.
Qed.

End CacheFacts.

(** ** The shape of a call *)

Section CallShape.
Context (env : Env).

(** The two ways a call can go. *)
Lemma call_cases endpoint cacheKey country w :
  let key := finalCacheKey cacheKey country in
  (exists entry,
     valid_entry env w key = Some entry /\
     sensorTowerCache w !! key = Some entry /\
     callSensorTowerAPI env endpoint cacheKey country w = (Ok (data entry), checked w key)) \/
  (valid_entry env w key = None /\
   callSensorTowerAPI env endpoint cacheKey country w
   = match settle (network env (length (requests w)) (request_of endpoint country)) with
     | Ok payload =>
         (Ok payload,
          mkWorld (<[key := mkEntry payload (clock env (clock_reads (checked w key)))]>
                     (sensorTowerCache w))
                  (S (clock_reads (checked w key)))
                  (requests w ++ [request_of endpoint country]))
     | Throw e =>
         (Throw (rethrown e),
          mkWorld (sensorTowerCache w) (clock_reads (checked w key))
                  (requests w ++ [request_of endpoint country]))
     end).
Proof.
  intros key. destruct (valid_entry env w key) as [entry|] eqn:Hv.
  - left. exists entry. split; [done|]. split; [|by apply call_hit].
    unfold valid_entry in Hv. destruct (sensorTowerCache w !! key); [|done].
    by destruct (_ <? _); simplify_eq.
  - right. split; [done|]. by apply call_miss.
Qed.

(** A payload that a call returns is in the cache under the final key
    when the call is over. *)
Lemma returned_is_cached endpoint cacheKey country w payload w1 :
  callSensorTowerAPI env endpoint cacheKey country w = (Ok payload, w1) ->
  exists entry,
    sensorTowerCache w1 !! finalCacheKey cacheKey country = Some entry /\
    data entry = payload.
Proof.
  destruct (call_cases endpoint cacheKey country w)
    as [(entry & _ & Hc & ->)|[_ ->]].
  - intros [= <- <-]. exists entry. split; [|done].
    unfold checked. by rewrite Hc.
  - destruct (settle _); [|done]. intros [= <- <-]. cbn.
    eexists. by rewrite lookup_insert_eq.
Qed.

(** A call leaves the entries under the other keys alone. *)
Lemma call_other_keys endpoint cacheKey country w k :
  k <> finalCacheKey cacheKey country ->
  sensorTowerCache (callSensorTowerAPI env endpoint cacheKey country w).2 !! k
  = sensorTowerCache w !! k.
Proof.
  intros Hk.
  destruct (call_cases endpoint cacheKey country w)
    as [(entry & _ & Hc & ->)|[_ ->]].
  - unfold checked. by rewrite Hc.
  - destruct (settle _); cbn; [|done]. by rewrite lookup_insert_ne.
Qed.

End CallShape.

(** ** The batch *)

Section BatchFacts.
Context {host : Host} (env : Env) {Id : Type} (p : Platform Id).
Context (includeCompetitors : bool) (country : option string).

Lemma process_one_recorded i w :
  process_one env p includeCompetitors country i w
  = (Ok (recorded i (attempt env p includeCompetitors country i w).1), (attempt env p includeCompetitors country i w).2).
Proof.
  unfold process_one, attempt, try_catchM, recorded.
  cbv [mbind mret M_bind M_ret lift].
  destruct (callSensorTowerAPI _ _ _ _ _) as [[raw|e] w1]; [|done].
  destruct (extractEssentialRevenueData _ _ _) as [d|e]; [|done].
  by destruct (drop_competitors _ _).
Qed.

Lemma for_of_app ids1 : forall ids2 acc w,
  for_of env p includeCompetitors country (ids1 ++ ids2) acc w
  = match for_of env p includeCompetitors country ids1 acc w with
    | (Ok rs, w') => for_of env p includeCompetitors country ids2 rs w'
    | (Throw e, w') => (Throw e, w')
    end.
Proof.
  induction ids1 as [|j ids1 IH]; intros ids2 acc w; cbn [for_of app]; [done|].
  cbv [mbind M_bind]. rewrite process_one_recorded. apply IH.
Qed.

Lemma for_of_results ids : forall acc w,
  exists rs,
    for_of env p includeCompetitors country ids acc w
    = (Ok (acc ++ rs), (for_of env p includeCompetitors country ids acc w).2) /\
    identifier <$> rs = ids.
Proof.
  induction ids as [|i ids IH]; intros acc w; cbn [for_of].
  - exists []. by rewrite app_nil_r.
  - cbv [mbind M_bind]. rewrite process_one_recorded.
    destruct (IH (acc ++ [recorded i (attempt env p includeCompetitors country i w).1]) (attempt env p includeCompetitors country i w).2) as (rs & Hrs & Hid).
    exists (recorded i (attempt env p includeCompetitors country i w).1 :: rs). split.
    + rewrite Hrs at 1. by rewrite <- app_assoc.
    + cbn. f_equal; [by destruct (attempt env p includeCompetitors country i w).1 | done].
Qed.

(** C2 (batch). The tool returns a summary whose [apps] has one element
    per identifier, in input order; the element of an identifier is the
    record of its own [try] block, run in the world that the earlier
    identifiers left: [{identifier, success: true, data}] when the block
    returns and [{identifier, success: false, error: message}] when it
    throws, whatever happened to the identifiers before it; and the
    summary counts the total, the successes and the failures. *)
Theorem C2_batch_partial_failure appIds w :
  let ids := as_array appIds in
  let out := revenue_tool env p appIds includeCompetitors country w in
  exists s,
    out.1 = Ok (SummaryContent s) /\
    length (apps s) = length ids /\
    identifier <$> apps s = ids /\
    total_apps s = length ids /\
    successful s = length (filter (fun r => success r = true) (apps s)) /\
    failed s = length (filter (fun r => success r = false) (apps s)) /\
    (successful s + failed s = total_apps s)%nat /\
    forall before i rest, ids = before ++ i :: rest ->
      apps s !! length before
      = Some (recorded i (attempt env p includeCompetitors country i (world_after env p includeCompetitors country before w)).1).
Proof.
  intros ids out. subst out. unfold revenue_tool, try_catchM.
  cbv [mbind M_bind mret M_ret]. fold ids.
  destruct (for_of_results ids [] w) as (rs & Hrun & Hid).
  rewrite Hrun. cbn [app apps total_apps successful failed fst].
  assert (Hlen : length rs = length ids) by (by rewrite <- Hid, length_fmap).
  eexists. split; [done|]. cbn [apps total_apps successful failed].
  repeat split; try done.
  - rewrite <- Hlen. clear. induction rs as [|r rs IH]; [done|].
    rewrite !filter_cons. destruct r; cbn; repeat case_decide; try done; cbn; lia.
  - intros before i rest Hsplit.
    pose proof Hrun as Hrun'. rewrite Hsplit, for_of_app in Hrun'.
    destruct (for_of_results before [] w) as (rs1 & Hrun1 & Hid1).
    rewrite Hrun1 in Hrun'. cbn [app for_of] in Hrun'.
    cbv [mbind M_bind] in Hrun'. rewrite process_one_recorded in Hrun'.
    destruct (for_of_results rest (rs1 ++ [recorded i (attempt env p includeCompetitors country i (world_after env p includeCompetitors country before w)).1])
                (attempt env p includeCompetitors country i (world_after env p includeCompetitors country before w)).2) as (rs2 & Hrun2 & _).
    unfold world_after in Hrun2 at 1 2.
    rewrite Hrun2 in Hrun'. injection Hrun' as Hrs.
    rewrite <- Hrs, <- Hid1, length_fmap, <- app_assoc.
    rewrite lookup_app_r by done.
    by rewrite Nat.sub_diag.
Qed.

End BatchFacts.

(** ** The extractor *)

Section ExtractFacts.
Context {host : Host}.

Lemma truthy_not_nullish v : truthy v = true -> nullish v = false.
Proof. by destruct v. Qed.

Lemma dot_truthy v k : truthy v = true -> dot v k = Ok (get v k).
Proof. intros Hv. unfold dot. by rewrite (truthy_not_nullish _ Hv). Qed.

Lemma dot_not_nullish v k : nullish v = false -> dot v k = Ok (get v k).
Proof. intros Hv. unfold dot. by rewrite Hv. Qed.

(** The record that [essential_of] builds once its five fallible parts
    have returned. *)
Lemma essential_of_inv rawData platform identifier e :
  truthy rawData = true ->
  essential_of rawData platform identifier = Ok e ->
  let revenue := get rawData "worldwide_last_month_revenue" in
  exists formatted countries rankings prices competitors,
    formatRevenue (opt_get revenue "value" ||| VNum (of_Z 0)) = Ok formatted /\
    top_countries_of (get rawData "top_countries") = Ok countries /\
    extractCategoryRankings (get rawData "category_rankings") platform = Ok rankings /\
    extractTopIAPPrices (get rawData "top_in_app_purchases") = Ok prices /\
    top_competitors_of (get rawData "related_apps") = Ok competitors /\
    category (app_info e)
    = opt_get (opt_get0 (get rawData "categories")) "name" ||| VStr "Unknown" /\
    revenue_metrics e
    = {| last_month_revenue := opt_get revenue "value" ||| VNum (of_Z 0);
         last_month_downloads :=
           opt_get (get rawData "worldwide_last_month_downloads") "value" ||| VNum (of_Z 0);
         revenue_currency := opt_get revenue "currency" ||| VStr "USD";
         revenue_formatted := formatted |} /\
    top_countries (market_position e) = countries /\
    category_rankings (market_position e) = rankings /\
    monetization e
    = {| price :=
           opt_get (get rawData "price") "string_value" ||| get rawData "priceText"
           ||| VStr "Free";
         has_in_app_purchases :=
           get rawData "has_in_app_purchases" ||| get rawData "offersIAP" ||| VBool false;
         top_iap_prices := prices |} /\
    competitive_analysis e
    = Some {| related_apps_count :=
                opt_get (get rawData "related_apps") "length" ||| VNum (of_Z 0);
              top_competitors := competitors |}.
Proof.
  intros Hraw. unfold essential_of.
  rewrite !(dot_truthy rawData _ Hraw). cbn [mbind result_bind].
  destruct (formatRevenue _) as [formatted|]; [|done]. cbn [mbind result_bind].
  destruct (top_countries_of _) as [countries|]; [|done]. cbn [mbind result_bind].
  destruct (extractCategoryRankings _ _) as [rankings|]; [|done]. cbn [mbind result_bind].
  destruct (extractTopIAPPrices _) as [prices|]; [|done]. cbn [mbind result_bind].
  destruct (top_competitors_of _) as [competitors|]; [|done]. cbn [mbind result_bind].
  intros [= <-]. cbn. by eexists _, _, _, _, _.
Qed.

Lemma extract_essential_inv rawData platform identifier e :
  extractEssentialRevenueData rawData platform identifier = Ok (ExEssential e) ->
  truthy rawData = true /\ essential_of rawData platform identifier = Ok e.
Proof.
  unfold extractEssentialRevenueData.
  destruct (truthy rawData); [|done]. cbn.
  destruct (essential_of _ _ _); cbn; [|done]. by intros [= ->].
Qed.

(** A number at or above 1,000,000 is at or above 1,000. *)
Lemma num_ge_million_thousand d :
  num_ge d (of_Z 1000000) = true -> num_ge d (of_Z 1000) = true.
Proof.
  destruct d as [s|s| |s m e]; try done; try (by destruct s).
  destruct s; [done|]. unfold num_ge.
  replace (of_Z 1000000) with (S754_finite false 8589934592000000 (-33))
    by (by vm_compute).
  replace (of_Z 1000) with (S754_finite false 8796093022208000 (-43))
    by (by vm_compute).
  cbn [SFcompare].
  destruct (Z.compare_spec e (-33)), (Z.compare_spec e (-43)); try done; lia.
Qed.

(** [nearest_scaled f m e] is the integer [n] with
    [n - 1/2 <= m * 2^e * 10^f < n + 1/2]. *)
Lemma nearest_scaled_nearest f m e :
  e < 0 ->
  let n := nearest_scaled f m e in
  (2 * n - 1) * 2 ^ (- e) <= 2 * (Z.pos m * 10 ^ Z.of_nat f) < (2 * n + 1) * 2 ^ (- e).
Proof.
  intros He n. subst n. unfold nearest_scaled.
  destruct (Z.leb_spec 0 e); [lia|].
  replace (1 - e) with (Z.succ (- e)) by lia. rewrite Z.pow_succ_r by lia.
  assert (Hd : 0 < 2 ^ (- e)) by (apply Z.pow_pos_nonneg; lia).
  set (d := 2 ^ (- e)) in *. set (x := Z.pos m * 10 ^ Z.of_nat f).
  pose proof (Z.div_mod (2 * x + d) (2 * d) ltac:(lia)) as Hdiv.
  pose proof (Z.mod_pos_bound (2 * x + d) (2 * d) ltac:(lia)) as Hmod.
  nia.
Qed.

(** C3 (revenue formatting). [formatRevenue] gives [$0] for an absent or
    zero amount; for any other number of cents, with [dollars = cents / 100],
    it gives [$] and the locale rendering of [dollars] below 1,000, [$],
    [dollars / 1000] to one decimal and [K] from 1,000 up to 1,000,000
    excluded, and [$], [dollars / 1000000] to one decimal and [M] from
    1,000,000 on; one decimal of a positive number below 10^21 is the
    tenth nearest to it, the upper one of two; 50000 gives [$500] (where
    the locale renders 500 as [500]), 2,500,000 gives [$25.0K] and
    150,000,000 gives [$1.5M]; and the record keeps the raw amount in
    [last_month_revenue] next to the string formatted from it. *)
Theorem C3_format_revenue :
  (formatRevenue VUndef = Ok "$0" /\ formatRevenue VNull = Ok "$0" /\
   formatRevenue (VNum (of_Z 0)) = Ok "$0") /\
  (forall cents, truthy (VNum cents) = true ->
     let dollars := num_div cents (of_Z 100) in
     (num_ge dollars (of_Z 1000) = false ->
        formatRevenue (VNum cents) = Ok ("$" +:+ toLocaleString dollars)) /\
     (num_ge dollars (of_Z 1000) = true -> num_ge dollars (of_Z 1000000) = false ->
        formatRevenue (VNum cents)
        = Ok ("$" +:+ toFixed 1 (num_div dollars (of_Z 1000)) +:+ "K")) /\
     (num_ge dollars (of_Z 1000000) = true ->
        formatRevenue (VNum cents)
        = Ok ("$" +:+ toFixed 1 (num_div dollars (of_Z 1000000)) +:+ "M"))) /\
  (forall m e,
     e < 0 -> at_least_1e21 m e = false ->
     let tenths := nearest_scaled 1 m e in
     toFixed 1 (S754_finite false m e) = fixed_digits 1 tenths /\
     (2 * tenths - 1) * 2 ^ (- e) <= 2 * (Z.pos m * 10) < (2 * tenths + 1) * 2 ^ (- e)) /\
  (toLocaleString (of_Z 500) = "500" -> formatRevenue (VNum (of_Z 50000)) = Ok "$500") /\
  formatRevenue (VNum (of_Z 2500000)) = Ok "$25.0K" /\
  formatRevenue (VNum (of_Z 150000000)) = Ok "$1.5M" /\
  (forall rawData platform identifier e,
     extractEssentialRevenueData rawData platform identifier = Ok (ExEssential e) ->
     let cents :=
       opt_get (get rawData "worldwide_last_month_revenue") "value" ||| VNum (of_Z 0) in
     last_month_revenue (revenue_metrics e) = cents /\
     formatRevenue cents = Ok (revenue_formatted (revenue_metrics e))).
Proof.
  split; [done|]. split; [|split; [|split; [|split; [|split]]]].
  - intros cents Hc dollars.
    assert (Hno : no_revenue (VNum cents) = false).
    { unfold no_revenue. rewrite Hc. by destruct cents as [?|[]| |[] ? ?]. }
    unfold formatRevenue. rewrite Hno. cbn [ToNumber mbind result_bind]. fold dollars.
    split; [|split].
    + intros H1000.
      destruct (num_ge dollars (of_Z 1000000)) eqn:H1e6; [|by rewrite H1000].
      apply num_ge_million_thousand in H1e6. congruence.
    + by intros -> ->.
    + by intros ->.
  - intros m e He Hbig tenths. split.
    + unfold toFixed. by rewrite Hbig.
    + exact (nearest_scaled_nearest 1 m e He).
  - intros Hloc. vm_compute in Hloc. vm_compute. by rewrite Hloc.
  - by vm_compute.
  - by vm_compute.
  - intros rawData platform identifier e He cents.
    apply extract_essential_inv in He as [Hraw He].
    apply essential_of_inv in He; [|done].
    destruct He as (formatted & ? & ? & ? & ? & Hfmt & _ & _ & _ & _ & _ & -> & _).
    done.
Qed.

End ExtractFacts.

(** ** Sets of prices *)

Section SetFacts.

Lemma set_key_idemp v : set_key (set_key v) = set_key v.
Proof. by destruct v as [| | |[[]| | |]| | |]. Qed.

Lemma same_value_zero_key a b :
  same_value_zero a b = true -> set_key a = set_key b.
Proof.
  destruct a as [| |x|x|x| |], b as [| |y|y|y| |]; try done; cbn.
  - by intros ->%Bool.eqb_prop.
  - destruct x as [s1|s1| |s1 m1 e1], y as [s2|s2| |s2 m2 e2]; try done;
      try (by destruct s1, s2); cbn.
    change (PosDef.Pos.compare_cont Eq m1 m2) with (Pos.compare m1 m2).
    destruct s1, s2; try done;
      destruct (Z.compare_spec e1 e2); try done; subst;
      by destruct (Pos.compare_spec m1 m2); subst.
  - by intros ->%String.eqb_eq.
Qed.

Lemma set_has_elem s v :
  set_has s v = true <-> exists e, e ∈ s /\ same_value_zero e v = true.
Proof.
  unfold set_has. rewrite existsb_exists.
  split; intros (e & He & Hs); exists e; by rewrite ?list_elem_of_In in *.
Qed.

Lemma Set_of_snoc l x : Set_of (l ++ [x]) = set_add (Set_of l) x.
Proof. unfold Set_of. by rewrite fold_left_app. Qed.

Lemma set_add_sublist s x : set_add s x `sublist_of` s ++ [set_key x].
Proof.
  unfold set_add. destruct (set_has _ _); [|done].
  by apply sublist_inserts_r.
Qed.

Lemma fold_set_add_sublist l : forall acc,
  fold_left set_add l acc `sublist_of` acc ++ (set_key <$> l).
Proof.
  induction l as [|x l IH]; intros acc; cbn.
  - by rewrite app_nil_r.
  - etrans; [apply IH|].
    change (acc ++ set_key x :: (set_key <$> l))
      with (acc ++ [set_key x] ++ (set_key <$> l)).
    rewrite app_assoc. apply sublist_app; [apply set_add_sublist|done].
Qed.

Lemma set_add_keys s x :
  Forall (fun v => set_key v = v) s -> Forall (fun v => set_key v = v) (set_add s x).
Proof.
  intros Hs. unfold set_add. destruct (set_has _ _); [done|].
  apply Forall_app. split; [done|]. constructor; [apply set_key_idemp|done].
Qed.

Lemma set_add_distinct s x : distinct s -> distinct (set_add s x).
Proof.
  intros Hs. unfold set_add. destruct (set_has s (set_key x)) eqn:Hhas; [done|].
  intros i j a b Hij Ha Hb.
  destruct (decide (j < length s)%nat) as [Hj|Hj].
  - rewrite lookup_app_l in Ha, Hb by lia. exact (Hs i j a b Hij Ha Hb).
  - apply lookup_lt_Some in Hb as Hjlen. rewrite length_app in Hjlen. cbn in Hjlen.
    assert (j = length s) as -> by lia.
    rewrite lookup_app_l in Ha by lia.
    rewrite lookup_app_r, Nat.sub_diag in Hb by lia. injection Hb as <-.
    destruct (same_value_zero a (set_key x)) eqn:Hsame; [|done].
    assert (set_has s (set_key x) = true); [|congruence].
    apply set_has_elem. exists a. split; [|done]. by eapply list_elem_of_lookup_2.
Qed.

Lemma set_add_complete s x :
  Forall (fun v => set_key v = v) s ->
  set_key x ∈ set_add s x /\ forall v, v ∈ s -> v ∈ set_add s x.
Proof.
  intros Hs. unfold set_add. destruct (set_has s (set_key x)) eqn:Hhas.
  - split; [|done]. apply set_has_elem in Hhas as (e & He & Hsame).
    apply same_value_zero_key in Hsame. rewrite set_key_idemp in Hsame.
    rewrite Forall_forall in Hs. rewrite <- Hsame, (Hs e He). done.
  - split; [|intros v Hv]; apply elem_of_app; [right|by left].
    by apply list_elem_of_singleton.
Qed.

Lemma Set_of_invariant l :
  Forall (fun v => set_key v = v) (Set_of l) /\
  distinct (Set_of l) /\
  forall x, x ∈ l -> set_key x ∈ Set_of l.
Proof.
  induction l as [|x l (Hkeys & Hdist & Hall)] using rev_ind.
  - repeat split; [by constructor| |by intros x ?%elem_of_nil].
    by intros i j a b _ ?.
  - rewrite Set_of_snoc. destruct (set_add_complete (Set_of l) x Hkeys) as [Hx Hkeep].
    repeat split; [by apply set_add_keys|by apply set_add_distinct|].
    intros y [Hy| ->%list_elem_of_singleton]%elem_of_app; auto.
Qed.

End SetFacts.

(** ** Null-safety, rankings and bounded lists *)

Section ExtractorClaims.
Context {host : Host}.

Lemma mapM_pure {A B} (f : A -> result B) (g : A -> B) (l : list A) :
  Forall (fun x => f x = Ok (g x)) l -> mapM f l = Ok (g <$> l).
Proof.
  induction 1 as [|x l Hx _ IH]; [done|].
  cbn. rewrite Hx. cbn. by rewrite IH.
Qed.

Lemma mapM_length {A B} (f : A -> result B) (l : list A) k :
  mapM f l = Ok k -> length k = length l.
Proof.
  revert k. induction l as [|x l IH]; intros k; cbn.
  - by intros [= <-].
  - destruct (f x); cbn; [|done].
    destruct (mapM f l) as [k'|]; cbn; [|done].
    intros [= <-]. cbn. by rewrite (IH k').
Qed.

Lemma competitor_of_pure app : nullish app = false -> competitor_of app = Ok (competitor app).
Proof. intros Happ. unfold competitor_of. by rewrite !(dot_not_nullish _ _ Happ). Qed.

Lemma top_competitors_bounded related_apps competitors :
  top_competitors_of related_apps = Ok competitors -> (length competitors <= 3)%nat.
Proof.
  unfold top_competitors_of. destruct (nullish related_apps).
  { intros [= <-]. cbn. lia. }
  destruct related_apps as [| | | | |items|]; try done. cbn.
  intros ->%mapM_length. rewrite length_take. lia.
Qed.

Lemma extractCategoryRankings_total rankings platform :
  extractCategoryRankings rankings platform
  = Ok (if truthy rankings then
          let deviceType := if String.eqb platform "ios" then "iphone" else "phone" in
          let deviceRankings := get rankings deviceType ||| rankings in
          Rankings (primary_category deviceRankings "top_free")
                   (primary_category deviceRankings "top_grossing")
                   (primary_category deviceRankings "top_paid")
        else NoRankings).
Proof.
  unfold extractCategoryRankings.
  destruct (truthy rankings) eqn:Hr; [|done]. cbn [negb].
  by rewrite (dot_truthy _ _ Hr).
Qed.

Lemma extractTopIAPPrices_total iapData :
  exists prices,
    extractTopIAPPrices iapData = Ok prices /\ (length prices <= 3)%nat /\ distinct prices.
Proof.
  unfold extractTopIAPPrices.
  destruct (truthy iapData) eqn:Hi; cbn [negb].
  2:{ exists []. repeat split; [cbn; lia|]. by intros i j a b _ ?. }
  rewrite (dot_truthy _ _ Hi). cbn [mbind result_bind].
  assert (Hnil : exists prices : list value,
             Ok [] = Ok prices /\ (length prices <= 3)%nat /\ distinct prices).
  { exists []. repeat split; [cbn; lia|]. by intros i j a b _ ?. }
  destruct (truthy (get iapData "US")); [|exact Hnil].
  destruct (get iapData "US") as [| | | | |items|]; try exact Hnil. cbn.
  destruct (mapM _ _) as [prices|] eqn:Hmap; cbn; [|exact Hnil].
  exists (Set_of prices). split; [done|].
  destruct (Set_of_invariant prices) as (_ & Hdist & _). split; [|done].
  apply mapM_length in Hmap. rewrite length_take in Hmap.
  pose proof (sublist_length _ _ (fold_set_add_sublist prices [])) as Hlen.
  cbn in Hlen. rewrite length_fmap in Hlen. unfold Set_of. lia.
Qed.

(** C5 (null-safety). [extractEssentialRevenueData] returns [null] for a
    falsy payload (null, undefined, the empty string); for the empty
    object, ['ios'] and 123 it returns a record with category ['Unknown'],
    revenue 0 formatted [$0], price ['Free'] and no competitor; and it
    never throws: for a truthy payload it returns the essential record,
    or, when building it throws, the object with the error description
    [Failed to extract data: <message>] and [raw_data_available: true]. *)
Theorem C5_extract_null_safe :
  (forall rawData platform identifier,
     truthy rawData = false ->
     extractEssentialRevenueData rawData platform identifier = Ok ExNull) /\
  (forall platform identifier,
     extractEssentialRevenueData VNull platform identifier = Ok ExNull /\
     extractEssentialRevenueData VUndef platform identifier = Ok ExNull /\
     extractEssentialRevenueData (VStr "") platform identifier = Ok ExNull) /\
  (exists e ca,
     extractEssentialRevenueData (VObj []) "ios" (VNum (of_Z 123)) = Ok (ExEssential e) /\
     category (app_info e) = VStr "Unknown" /\
     last_month_revenue (revenue_metrics e) = VNum (of_Z 0) /\
     revenue_formatted (revenue_metrics e) = "$0" /\
     price (monetization e) = VStr "Free" /\
     competitive_analysis e = Some ca /\
     top_competitors ca = []) /\
  (forall rawData platform identifier,
     truthy rawData = true ->
     extractEssentialRevenueData rawData platform identifier
     = Ok match essential_of rawData platform identifier with
          | Ok e => ExEssential e
          | Throw error =>
              ExDegraded ("Failed to extract data: " +:+ err_message error) true
          end) /\
  (forall platform identifier,
     extractEssentialRevenueData (VObj [("top_countries", VNum (of_Z 5))]) platform identifier
     = Ok (ExDegraded ("Failed to extract data: "
                       +:+ msg_not_a_function "rawData.top_countries?.slice") true)) /\
  (forall rawData platform identifier,
     exists r, extractEssentialRevenueData rawData platform identifier = Ok r).
Proof.
  assert (Htruthy : forall rawData platform identifier,
     truthy rawData = true ->
     extractEssentialRevenueData rawData platform identifier
     = Ok match essential_of rawData platform identifier with
          | Ok e => ExEssential e
          | Throw error =>
              ExDegraded ("Failed to extract data: " +:+ err_message error) true
          end).
  { intros rawData platform identifier Hraw. unfold extractEssentialRevenueData.
    rewrite Hraw. cbn [negb]. by destruct (essential_of _ _ _). }
  assert (Hfalsy : forall rawData platform identifier,
     truthy rawData = false ->
     extractEssentialRevenueData rawData platform identifier = Ok ExNull).
  { intros rawData platform identifier Hraw. unfold extractEssentialRevenueData.
    by rewrite Hraw. }
  split; [exact Hfalsy|].
  split; [by intros; repeat split; apply Hfalsy|].
  split; [by eexists _, _|].
  split; [exact Htruthy|].
  split.
  - intros platform identifier. by rewrite Htruthy.
  - intros rawData platform identifier.
    destruct (truthy rawData) eqn:Hraw; [rewrite Htruthy|rewrite Hfalsy]; by eauto.
Qed.

(** C9 as amended (category rankings). [extractCategoryRankings] never
    throws; for falsy rankings it returns the empty object, in which no
    ranking is null; for truthy rankings it reads the bucket [iphone] when
    the platform is ['ios'] and [phone] otherwise, falls back on the
    rankings themselves when the bucket is falsy, and returns the three
    rankings, each of which is null when its chart, the chart's
    [primary_categories] or their first entry is absent. *)
Theorem C9_category_rankings :
  (forall rankings platform, exists r, extractCategoryRankings rankings platform = Ok r) /\
  (forall rankings platform,
     truthy rankings = false ->
     extractCategoryRankings rankings platform = Ok NoRankings /\
     forall chart, ranking NoRankings chart = VUndef) /\
  (forall rankings platform,
     truthy rankings = true ->
     let deviceType := if String.eqb platform "ios" then "iphone" else "phone" in
     let deviceRankings := get rankings deviceType ||| rankings in
     extractCategoryRankings rankings platform
     = Ok (Rankings (primary_category deviceRankings "top_free")
                    (primary_category deviceRankings "top_grossing")
                    (primary_category deviceRankings "top_paid"))) /\
  (forall deviceRankings chart,
     nullish (opt_get deviceRankings chart) = true \/
     nullish (opt_get (opt_get deviceRankings chart) "primary_categories") = true \/
     nullish (opt_get0 (opt_get (opt_get deviceRankings chart) "primary_categories")) = true ->
     primary_category deviceRankings chart = VNull).
Proof.
  split; [|split; [|split]].
  - intros rankings platform. rewrite extractCategoryRankings_total. by eauto.
  - intros rankings platform Hr. rewrite extractCategoryRankings_total. by rewrite Hr.
  - intros rankings platform Hr. rewrite extractCategoryRankings_total. by rewrite Hr.
  - intros deviceRankings chart. unfold primary_category, or_else.
    intros [H|[H|H]].
    + by destruct (opt_get deviceRankings chart).
    + by destruct (opt_get (opt_get deviceRankings chart) "primary_categories").
    + by destruct (opt_get0 _).
Qed.

Lemma mapM_throws {A B} (f : A -> result B) (l : list A) :
  Exists (fun x => exists e, f x = Throw e) l -> exists e, mapM f l = Throw e.
Proof.
  induction l as [|x l IH]; intros Hex; [by apply Exists_nil in Hex|].
  cbn. destruct (f x) as [y|e] eqn:Hx; cbn; [|by eexists].
  apply Exists_cons in Hex as [[e He]|Hex]; [congruence|].
  destruct (IH Hex) as [e ->]. by eexists.
Qed.

Lemma competitor_of_null app :
  nullish app = true -> competitor_of app = Throw (TypeError (msg_cannot_read app "name")).
Proof. intros Happ. unfold competitor_of, dot. by rewrite Happ. Qed.

(** With the revenue, the countries and the competitors read without an
    exception, the record is built. *)
Lemma essential_of_ok rawData platform identifier formatted countries competitors :
  truthy rawData = true ->
  formatRevenue
    (opt_get (get rawData "worldwide_last_month_revenue") "value" ||| VNum (of_Z 0))
  = Ok formatted ->
  top_countries_of (get rawData "top_countries") = Ok countries ->
  top_competitors_of (get rawData "related_apps") = Ok competitors ->
  exists e, essential_of rawData platform identifier = Ok e.
Proof.
  intros Hraw Hf Hc Hr. unfold essential_of.
  rewrite !(dot_truthy rawData _ Hraw). cbn [mbind result_bind].
  rewrite Hf. cbn [mbind result_bind]. rewrite Hc. cbn [mbind result_bind].
  destruct (extractCategoryRankings _ _) as [rankings|] eqn:Hk;
    [|by rewrite extractCategoryRankings_total in Hk].
  cbn [mbind result_bind].
  destruct (extractTopIAPPrices_total (get rawData "top_in_app_purchases"))
    as (prices & -> & _).
  cbn [mbind result_bind]. rewrite Hr. cbn [mbind result_bind]. by eexists.
Qed.

(** A null among the first three entries makes [map] throw. *)
Lemma top_competitors_of_null apps :
  Exists (fun app => nullish app = true) (take 3 apps) ->
  exists e, top_competitors_of (VArr apps) = Throw e.
Proof.
  intros Hnull. cbn. apply mapM_throws.
  eapply Exists_impl; [exact Hnull|]. intros app Happ.
  eexists. by apply competitor_of_null.
Qed.

(** A null among the first three related apps: the record is lost. *)
Lemma null_competitor_degrades rawData platform identifier apps :
  truthy rawData = true ->
  get rawData "related_apps" = VArr apps ->
  Exists (fun app => nullish app = true) (take 3 apps) ->
  exists error,
    extractEssentialRevenueData rawData platform identifier = Ok (ExDegraded error true).
Proof.
  intros Hraw Happs Hnull.
  destruct (top_competitors_of_null apps Hnull) as [e0 He0].
  assert (Hthrow : exists e, essential_of rawData platform identifier = Throw e).
  { unfold essential_of.
    rewrite !(dot_truthy rawData _ Hraw). cbn [mbind result_bind].
    destruct (formatRevenue _); [|by eexists]. cbn [mbind result_bind].
    destruct (top_countries_of _); [|by eexists]. cbn [mbind result_bind].
    destruct (extractCategoryRankings _ _); [|by eexists]. cbn [mbind result_bind].
    destruct (extractTopIAPPrices _); [|by eexists]. cbn [mbind result_bind].
    rewrite Happs, He0. by eexists. }
  destruct Hthrow as [e He]. eexists.
  unfold extractEssentialRevenueData. rewrite Hraw, He. reflexivity.
Qed.

(** A null among the first three purchases: the prices are lost. *)
Lemma null_purchase_gives_no_price iapData us :
  get iapData "US" = VArr us ->
  Exists (fun iap => nullish iap = true) (take 3 us) ->
  extractTopIAPPrices iapData = Ok [].
Proof.
  intros HUS Hnull. unfold extractTopIAPPrices.
  destruct (truthy iapData) eqn:Hi; cbn [negb]; [|done].
  rewrite (dot_truthy _ _ Hi), HUS. cbn.
  destruct (mapM_throws (fun iap => dot iap "price") (take 3 us)) as [e ->]; [|done].
  eapply Exists_impl; [exact Hnull|]. intros iap Hiap.
  eexists. unfold dot. by rewrite Hiap.
Qed.

End ExtractorClaims.

Section BoundedLists.
Context {host : Host} (env : Env) {Id : Type} (p : Platform Id).

(** C8 as amended (bounded lists). Competitors: at most 3 are returned;
    from an array whose first three entries are not null they are these
    entries reduced to name, rating and price, exactly 3 for an array of
    10; an absent collection gives the empty list. In-app-purchase
    prices: at most 3, pairwise different; from an array under [US] whose
    first three entries are not null they are the prices of these entries
    put through a set, which keeps the first occurrence of each value in
    encounter order; the bucket read is [US] for every payload, the
    country of the request being no input of the extraction. The record
    of a payload holds these competitors and these prices, and it is
    built whenever the revenue, the countries and the competitors are
    read without an exception. A null among the first three related apps
    leaves no competitor and no record but the degraded object; a null
    among the first three purchases leaves no price. *)
Theorem C8_bounded_lists :
  (forall related_apps competitors,
     top_competitors_of related_apps = Ok competitors -> (length competitors <= 3)%nat) /\
  (forall apps,
     Forall (fun app => nullish app = false) (take 3 apps) ->
     top_competitors_of (VArr apps) = Ok (competitor <$> take 3 apps)) /\
  (forall apps,
     length apps = 10%nat ->
     Forall (fun app => nullish app = false) (take 3 apps) ->
     exists c1 c2 c3, top_competitors_of (VArr apps) = Ok [c1; c2; c3]) /\
  (forall related_apps,
     nullish related_apps = true -> top_competitors_of related_apps = Ok []) /\
  (forall iapData,
     exists prices,
       extractTopIAPPrices iapData = Ok prices /\
       (length prices <= 3)%nat /\ distinct prices) /\
  (forall iapData us,
     truthy iapData = true ->
     get iapData "US" = VArr us ->
     Forall (fun iap => nullish iap = false) (take 3 us) ->
     extractTopIAPPrices iapData
     = Ok (Set_of ((fun iap => get iap "price") <$> take 3 us))) /\
  (forall prices,
     Set_of prices `sublist_of` (set_key <$> prices) /\
     distinct (Set_of prices) /\
     (forall x, x ∈ prices -> set_key x ∈ Set_of prices) /\
     forall x, Set_of (prices ++ [x])
               = if set_has (Set_of prices) (set_key x) then Set_of prices
                 else Set_of prices ++ [set_key x]) /\
  (forall rawData platform identifier e,
     extractEssentialRevenueData rawData platform identifier = Ok (ExEssential e) ->
     exists ca,
       competitive_analysis e = Some ca /\
       top_competitors_of (get rawData "related_apps")
       = Ok (top_competitors ca) /\
       extractTopIAPPrices (get rawData "top_in_app_purchases")
       = Ok (top_iap_prices (monetization e))) /\
  (forall rawData platform identifier formatted countries competitors,
     truthy rawData = true ->
     formatRevenue
       (opt_get (get rawData "worldwide_last_month_revenue") "value" ||| VNum (of_Z 0))
     = Ok formatted ->
     top_countries_of (get rawData "top_countries") = Ok countries ->
     top_competitors_of (get rawData "related_apps") = Ok competitors ->
     exists e ca,
       extractEssentialRevenueData rawData platform identifier = Ok (ExEssential e) /\
       competitive_analysis e = Some ca /\
       top_competitors ca = competitors /\
       extractTopIAPPrices (get rawData "top_in_app_purchases")
       = Ok (top_iap_prices (monetization e))) /\
  (forall apps,
     Exists (fun app => nullish app = true) (take 3 apps) ->
     exists e, top_competitors_of (VArr apps) = Throw e) /\
  (forall rawData platform identifier apps,
     truthy rawData = true ->
     get rawData "related_apps" = VArr apps ->
     Exists (fun app => nullish app = true) (take 3 apps) ->
     exists error,
       extractEssentialRevenueData rawData platform identifier
       = Ok (ExDegraded error true)) /\
  (forall iapData us,
     get iapData "US" = VArr us ->
     Exists (fun iap => nullish iap = true) (take 3 us) ->
     extractTopIAPPrices iapData = Ok []) /\
  (forall includeCompetitors country i w rawData w',
     callSensorTowerAPI env (endpoint_of p i) (cacheKey_of p i) country w = (Ok rawData, w') ->
     (attempt env p includeCompetitors country i w).1
     = extractEssentialRevenueData rawData (platform_name p) (id_value p i)
         ≫= drop_competitors includeCompetitors).
Proof.
  assert (Hcomp : forall apps,
     Forall (fun app => nullish app = false) (take 3 apps) ->
     top_competitors_of (VArr apps) = Ok (competitor <$> take 3 apps)).
  { intros apps Happs. cbn. apply mapM_pure.
    eapply Forall_impl; [exact Happs|]. intros app. apply competitor_of_pure. }
  assert (Hrecord : forall rawData platform identifier e,
     extractEssentialRevenueData rawData platform identifier = Ok (ExEssential e) ->
     exists ca,
       competitive_analysis e = Some ca /\
       top_competitors_of (get rawData "related_apps")
       = Ok (top_competitors ca) /\
       extractTopIAPPrices (get rawData "top_in_app_purchases")
       = Ok (top_iap_prices (monetization e))).
  { intros rawData platform identifier e He.
    apply extract_essential_inv in He as [Hraw He].
    apply essential_of_inv in He; [|done].
    destruct He as (? & ? & ? & prices & competitors
                    & _ & _ & _ & Hp & Hc & _ & _ & _ & _ & -> & ->).
    by eexists. }
  split; [exact top_competitors_bounded|].
  split; [exact Hcomp|].
  split.
  { intros apps Hlen Happs. rewrite (Hcomp apps Happs).
    do 10 (destruct apps as [|? apps]; [done|]). by eexists _, _, _. }
  split.
  { intros related_apps Hnull. unfold top_competitors_of. by rewrite Hnull. }
  split; [exact extractTopIAPPrices_total|].
  split.
  { intros iapData us Hi HUS Hus. unfold extractTopIAPPrices.
    rewrite Hi, (dot_truthy _ _ Hi), HUS. cbn.
    rewrite (mapM_pure _ (fun iap => get iap "price")); [done|].
    eapply Forall_impl; [exact Hus|]. intros iap. apply dot_not_nullish. }
  split.
  { intros prices. destruct (Set_of_invariant prices) as (_ & Hdist & Hall).
    split; [exact (fold_set_add_sublist prices [])|].
    split; [done|]. split; [done|].
    intros x. by rewrite Set_of_snoc. }
  split; [exact Hrecord|].
  split.
  { intros rawData platform identifier formatted countries competitors Hraw Hf Hc Hr.
    destruct (essential_of_ok rawData platform identifier _ _ _ Hraw Hf Hc Hr) as [e He].
    assert (Hex : extractEssentialRevenueData rawData platform identifier
                  = Ok (ExEssential e)).
    { unfold extractEssentialRevenueData. rewrite Hraw, He. reflexivity. }
    destruct (Hrecord _ _ _ _ Hex) as (ca & Hca & Hcs & Hps).
    exists e, ca. split; [done|]. split; [done|]. split; [congruence|done]. }
  split; [exact top_competitors_of_null|].
  split; [exact null_competitor_degrades|].
  split; [exact null_purchase_gives_no_price|].
  intros includeCompetitors country i w rawData w' Hcall.
  unfold attempt. cbv [mbind M_bind lift]. rewrite Hcall. cbn.
  by destruct (extractEssentialRevenueData _ _ _).
Qed.

End BoundedLists.

(** ** Cache keys *)

Section KeyFacts.
Context {host : Host} (env : Env).

Lemma append_empty_r (s : string) : s +:+ "" = s.
Proof. induction s as [|c s IH]; [done|]. simpl_append. by rewrite IH. Qed.


Lemma finalCacheKey_suffix cacheKey country :
  finalCacheKey cacheKey country = cacheKey +:+ key_suffix country.
Proof.
  unfold finalCacheKey, key_suffix.
  destruct (given country); [done|]. by rewrite append_empty_r.
Qed.









End KeyFacts.

(** * Further properties *)

(** ** More on the cache *)

Section CacheComposition.
Context (env : Env).

(** X1 (round trip). After a call has returned a payload, a second call
    with the same cache key and country, made before the entry under the
    key expires, returns the same payload and issues no request, whatever
    its endpoint is. *)
Theorem X1_second_call_is_served_from_cache
    endpoint endpoint' cacheKey country w payload w1 :
  callSensorTowerAPI env endpoint cacheKey country w = (Ok payload, w1) ->
  (forall entry,
     sensorTowerCache w1 !! finalCacheKey cacheKey country = Some entry ->
     clock env (clock_reads w1) < timestamp entry + CACHE_DURATION) ->
  let again := callSensorTowerAPI env endpoint' cacheKey country w1 in
  again.1 = Ok payload /\
  requests again.2 = requests w1 /\
  sensorTowerCache again.2 = sensorTowerCache w1.
Proof.
  intros Hcall Hyoung again. subst again.
  destruct (returned_is_cached env _ _ _ _ _ _ Hcall) as (entry & Hc & <-).
  rewrite (call_hit env endpoint' cacheKey country w1 entry).
  - unfold checked. by rewrite Hc.
  - unfold valid_entry. rewrite Hc.
    destruct (Z.ltb_spec (clock env (clock_reads w1) - timestamp entry) CACHE_DURATION);
      [done|]. specialize (Hyoung entry Hc). lia.
Qed.

(** X2 (failures are not cached). When nothing is cached under the key
    and the call throws, nothing is cached under the key afterwards, and
    the next call for the key goes to the network again. *)
Theorem X2_failure_is_not_cached endpoint cacheKey country w e w1 :
  sensorTowerCache w !! finalCacheKey cacheKey country = None ->
  callSensorTowerAPI env endpoint cacheKey country w = (Throw e, w1) ->
  sensorTowerCache w1 !! finalCacheKey cacheKey country = None /\
  requests w1 = requests w ++ [request_of endpoint country] /\
  requests (callSensorTowerAPI env endpoint cacheKey country w1).2
  = requests w ++ [request_of endpoint country; request_of endpoint country].
Proof.
  intros Hnone.
  assert (Hmiss : forall w', sensorTowerCache w' !! finalCacheKey cacheKey country = None ->
            valid_entry env w' (finalCacheKey cacheKey country) = None).
  { intros w' Hw'. unfold valid_entry. by rewrite Hw'. }
  rewrite (call_miss env _ _ _ _ (Hmiss w Hnone)).
  destruct (settle _) as [payload|e0]; [done|]. intros [= <- <-]. cbn.
  split; [done|]. split; [done|].
  rewrite (call_miss env endpoint cacheKey country); [|by apply Hmiss].
  cbn. rewrite <- app_assoc. by destruct (settle _).
Qed.

(** X3 (no eviction). A call never removes a key from the cache, and adds
    at most its own. *)
Theorem X3_call_never_evicts endpoint cacheKey country w :
  let out := callSensorTowerAPI env endpoint cacheKey country w in
  dom (sensorTowerCache w) ⊆ dom (sensorTowerCache out.2) /\
  dom (sensorTowerCache out.2)
  ⊆ dom (sensorTowerCache w) ∪ {[ finalCacheKey cacheKey country ]}.
Proof.
  intros out. subst out.
  destruct (call_cases env endpoint cacheKey country w)
    as [(entry & _ & Hc & ->)|[_ ->]].
  - unfold checked. rewrite Hc. cbn. split; [done|apply union_subseteq_l].
  - destruct (settle _); cbn; [|split; [done|apply union_subseteq_l]].
    rewrite dom_insert_L. split; [apply union_subseteq_r|].
    by rewrite (comm_L (∪)).
Qed.

(** X4 (errors of a call). The message of every error that a call throws
    contains [Rate limit] or starts with
    [Failed to fetch data from Sensor Tower: ], and the error is an
    [Error] in the second case. *)
Theorem X4_thrown_errors_are_classified endpoint cacheKey country w e :
  (callSensorTowerAPI env endpoint cacheKey country w).1 = Throw e ->
  includes "Rate limit" (err_message e) = true \/
  (err_name e = "Error" /\ exists msg, err_message e = wrap_prefix +:+ msg).
Proof.
  destruct (call_cases env endpoint cacheKey country w)
    as [(entry & _ & _ & ->)|[_ ->]]; [done|].
  destruct (settle _) as [payload|e0]; [done|]. cbn. intros [= <-].
  unfold rethrown. destruct (includes "Rate limit" (err_message e0)) eqn:Hinc; [by left|].
  right. split; [done|]. exists (err_message e0). reflexivity.
Qed.

(** X5 (timestamps). When every cached timestamp is a clock reading taken
    before, it is so after a call; with a clock that never goes back, no
    entry is then younger than the next reading: the age that the expiry
    test computes is never negative. *)
Theorem X5_timestamps_are_past_readings endpoint cacheKey country w :
  stamped env w ->
  let w1 := (callSensorTowerAPI env endpoint cacheKey country w).2 in
  stamped env w1 /\
  (monotone_clock env ->
   forall k entry, sensorTowerCache w1 !! k = Some entry ->
     0 <= clock env (clock_reads w1) - timestamp entry).
Proof.
  intros Hw w1.
  assert (Hw1 : stamped env w1).
  { subst w1.
    destruct (call_cases env endpoint cacheKey country w)
      as [(entry & _ & Hc & ->)|[_ ->]].
    - unfold checked. rewrite Hc. intros k e He. cbn in *.
      destruct (Hw k e He) as (n & Hn & Hts). exists n. split; [lia|done].
    - assert (Hreads : (clock_reads w
                        <= clock_reads (checked w (finalCacheKey cacheKey country)))%nat).
      { unfold checked. destruct (sensorTowerCache w !! _); cbn; lia. }
      set (reads := clock_reads (checked w (finalCacheKey cacheKey country))) in *.
      destruct (settle _) as [payload|e0]; intros k e He; cbn in *.
      + destruct (decide (k = finalCacheKey cacheKey country)) as [->|Hk].
        * rewrite lookup_insert_eq in He. injection He as <-. cbn.
          exists reads. split; [lia|done].
        * rewrite lookup_insert_ne in He by done.
          destruct (Hw k e He) as (n & Hn & Hts). exists n. split; [lia|done].
      + destruct (Hw k e He) as (n & Hn & Hts). exists n. split; [lia|done]. }
  split; [done|].
  intros Hmono k entry He. destruct (Hw1 k entry He) as (n & Hn & ->).
  specialize (Hmono n (clock_reads w1)). lia.
Qed.

End CacheComposition.

(** ** More on the batch *)

Section BatchComposition.
Context {host : Host} (env : Env) {Id : Type} (p : Platform Id).

(** The [try] block of an identifier in terms of its fetch. *)
Lemma attempt_run includeCompetitors country i w :
  attempt env p includeCompetitors country i w
  = (match (callSensorTowerAPI env (endpoint_of p i) (cacheKey_of p i) country w).1 with
     | Ok rawData =>
         extractEssentialRevenueData rawData (platform_name p) (id_value p i)
           ≫= drop_competitors includeCompetitors
     | Throw e => Throw e
     end,
     (callSensorTowerAPI env (endpoint_of p i) (cacheKey_of p i) country w).2).
Proof.
  unfold attempt. cbv [mbind M_bind lift].
  destruct (callSensorTowerAPI _ _ _ _ _) as [[rawData|e] w1]; [|done]. cbn.
  by destruct (extractEssentialRevenueData _ _ _).
Qed.

(** The tool is its loop. *)
Lemma revenue_tool_run appIds includeCompetitors country w :
  exists rs,
    for_of env p includeCompetitors country (as_array appIds) [] w
    = (Ok rs, (revenue_tool env p appIds includeCompetitors country w).2) /\
    (revenue_tool env p appIds includeCompetitors country w).1
    = Ok (SummaryContent {|
        total_apps := length (as_array appIds);
        successful := length (filter (fun r => success r = true) rs);
        failed := length (filter (fun r => success r = false) rs);
        apps := rs |}).
Proof.
  destruct (for_of_results env p includeCompetitors country (as_array appIds) [] w)
    as (rs & Hrun & _).
  exists rs. unfold revenue_tool, try_catchM. cbv [mbind M_bind mret M_ret].
  rewrite Hrun. cbn. by rewrite Hrun.
Qed.

Lemma call_requests endpoint cacheKey country w :
  let out := callSensorTowerAPI env endpoint cacheKey country w in
  requests out.2 = requests w \/
  requests out.2 = requests w ++ [request_of endpoint country].
Proof.
  intros out. subst out.
  destruct (call_cases env endpoint cacheKey country w)
    as [(entry & _ & Hc & ->)|[_ ->]].
  - left. unfold checked. by rewrite Hc.
  - right. by destruct (settle _).
Qed.

Lemma call_dom endpoint cacheKey country w :
  dom (sensorTowerCache w)
  ⊆ dom (sensorTowerCache (callSensorTowerAPI env endpoint cacheKey country w).2).
Proof.
  destruct (call_cases env endpoint cacheKey country w)
    as [(entry & _ & Hc & ->)|[_ ->]].
  - unfold checked. by rewrite Hc.
  - destruct (settle _); cbn; [|done]. rewrite dom_insert_L. apply union_subseteq_r.
Qed.

Lemma for_of_requests includeCompetitors country ids : forall acc w,
  exists new,
    requests (for_of env p includeCompetitors country ids acc w).2 = requests w ++ new /\
    (length new <= length ids)%nat /\
    forall r, r ∈ new -> exists i, i ∈ ids /\ r = request_of (endpoint_of p i) country.
Proof.
  induction ids as [|i ids IH]; intros acc w; cbn [for_of].
  - exists []. rewrite app_nil_r. split; [done|]. split; [done|].
    by intros r ?%elem_of_nil.
  - cbv [mbind M_bind]. rewrite process_one_recorded, attempt_run. cbn [snd].
    match goal with |- context [for_of _ _ _ _ ids ?a ?w1] =>
      destruct (IH a w1) as (new & Hreq & Hlen & Hnew) end.
    rewrite Hreq.
    destruct (call_requests (endpoint_of p i) (cacheKey_of p i) country w) as [->| ->].
    + exists new. split; [done|]. split; [cbn; lia|].
      intros r Hr. destruct (Hnew r Hr) as (j & Hj & ->).
      exists j. split; [by right|done].
    + exists (request_of (endpoint_of p i) country :: new).
      split; [by rewrite <- app_assoc|]. split; [cbn; lia|].
      intros r [->|Hr]%elem_of_cons.
      * exists i. split; [by left|done].
      * destruct (Hnew r Hr) as (j & Hj & ->). exists j. split; [by right|done].
Qed.

(** X6 (requests of a batch). A tool call keeps the requests issued
    before it and adds at most one per identifier, each the GET request
    for the endpoint of one of the identifiers with the country of the
    call. *)
Theorem X6_batch_requests appIds includeCompetitors country w :
  let out := revenue_tool env p appIds includeCompetitors country w in
  exists new,
    requests out.2 = requests w ++ new /\
    (length new <= length (as_array appIds))%nat /\
    forall r, r ∈ new ->
      method r = "GET" /\
      exists i, i ∈ as_array appIds /\ url r = finalEndpoint (endpoint_of p i) country.
Proof.
  intros out. subst out.
  destruct (revenue_tool_run appIds includeCompetitors country w) as (rs & Hrun & _).
  destruct (for_of_requests includeCompetitors country (as_array appIds) [] w)
    as (new & Hreq & Hlen & Hnew).
  rewrite Hrun in Hreq. exists new. split; [done|]. split; [done|].
  intros r Hr. destruct (Hnew r Hr) as (i & Hi & ->). split; [done|]. by exists i.
Qed.

Lemma for_of_cached includeCompetitors country ids : forall acc w,
  (forall i d, EntryOk i d ∈ acc ->
     finalCacheKey (cacheKey_of p i) country ∈ dom (sensorTowerCache w)) ->
  exists rs w',
    for_of env p includeCompetitors country ids acc w = (Ok rs, w') /\
    dom (sensorTowerCache w) ⊆ dom (sensorTowerCache w') /\
    forall i d, EntryOk i d ∈ rs ->
      finalCacheKey (cacheKey_of p i) country ∈ dom (sensorTowerCache w').
Proof.
  induction ids as [|i ids IH]; intros acc w Hacc; cbn [for_of].
  - by exists acc, w.
  - cbv [mbind M_bind]. rewrite process_one_recorded, attempt_run. cbn [fst snd].
    pose proof (call_dom (endpoint_of p i) (cacheKey_of p i) country w) as Hdom.
    destruct (callSensorTowerAPI env (endpoint_of p i) (cacheKey_of p i) country w)
      as [r w1] eqn:Hcall. cbn [fst snd] in *.
    match goal with |- context [for_of _ _ _ _ ids ?a w1] =>
      destruct (IH a w1) as (rs & w' & Hrun & Hdom' & Hrs) end.
    + intros j d [Hj|Hj%list_elem_of_singleton]%elem_of_app.
      * apply Hdom. by eapply Hacc.
      * destruct r as [rawData|e]; [|done].
        destruct (returned_is_cached env _ _ _ _ _ _ Hcall) as (entry & Hentry & _).
        assert (j = i) as ->.
        { revert Hj. destruct (_ ≫= _); cbn; by intros [= ->]. }
        apply elem_of_dom. by eexists.
    + exists rs, w'. split; [done|]. split; [by etrans|done].
Qed.

(** X7 (cache after a batch). A tool call removes no key from the cache,
    and when it is over every identifier that was recorded as a success
    has an entry under its final key. *)
Theorem X7_batch_fills_cache appIds includeCompetitors country w :
  let out := revenue_tool env p appIds includeCompetitors country w in
  dom (sensorTowerCache w) ⊆ dom (sensorTowerCache out.2) /\
  forall s i d,
    out.1 = Ok (SummaryContent s) -> EntryOk i d ∈ apps s ->
    is_Some (sensorTowerCache out.2 !! finalCacheKey (cacheKey_of p i) country).
Proof.
  intros out. subst out.
  destruct (revenue_tool_run appIds includeCompetitors country w) as (rs & Hrun & Hout).
  destruct (for_of_cached includeCompetitors country (as_array appIds) [] w)
    as (rs' & w' & Hrun' & Hdom & Hrs).
  { by intros i d ?%elem_of_nil. }
  rewrite Hrun in Hrun'. injection Hrun' as <- <-.
  split; [done|].
  intros s i d Hs Hin. rewrite Hout in Hs. injection Hs as <-. cbn in Hin.
  apply elem_of_dom. by eapply Hrs.
Qed.

(** X8 (falsy payload). When the fetch of an identifier returns a falsy
    payload (JSON [null], [0], [false] or the empty string), the
    identifier is recorded as a success with data [null] if the
    competitors are included, and as a failure with the message of the
    TypeError of reading [competitive_analysis] of null if they are
    excluded. *)
Theorem X8_falsy_payload country i w rawData w1 :
  callSensorTowerAPI env (endpoint_of p i) (cacheKey_of p i) country w = (Ok rawData, w1) ->
  truthy rawData = false ->
  process_one env p true country i w = (Ok (EntryOk i ExNull), w1) /\
  process_one env p false country i w
  = (Ok (EntryFailed i (msg_cannot_read VNull "competitive_analysis")), w1).
Proof.
  intros Hcall Hraw. rewrite !process_one_recorded, !attempt_run, Hcall. cbn [fst snd].
  unfold extractEssentialRevenueData. by rewrite Hraw.
Qed.

Lemma for_of_stripped country ids : forall acc w,
  exists rs w',
    for_of env p true country ids acc w = (Ok rs, w') /\
    for_of env p false country ids (stripped <$> acc) w = (Ok (stripped <$> rs), w').
Proof.
  induction ids as [|i ids IH]; intros acc w; cbn [for_of].
  - by exists acc, w.
  - cbv [mbind M_bind]. rewrite !process_one_recorded, !attempt_run. cbn [fst snd].
    set (w1 := (callSensorTowerAPI env (endpoint_of p i) (cacheKey_of p i) country w).2).
    set (r := (callSensorTowerAPI env (endpoint_of p i) (cacheKey_of p i) country w).1).
    match goal with |- context [for_of _ _ true _ ids ?a w1] =>
      destruct (IH a w1) as (rs & w' & Ht & Hf) end.
    exists rs, w'. split; [done|].
    rewrite fmap_app in Hf. cbn [fmap list_fmap] in Hf.
    replace (recorded i match r with
                        | Ok rawData =>
                            extractEssentialRevenueData rawData (platform_name p) (id_value p i)
                              ≫= drop_competitors false
                        | Throw e => Throw e
                        end)
      with (stripped (recorded i match r with
                        | Ok rawData =>
                            extractEssentialRevenueData rawData (platform_name p) (id_value p i)
                              ≫= drop_competitors true
                        | Throw e => Throw e
                        end)); [done|].
    destruct r as [rawData|e]; [|done].
    by destruct (extractEssentialRevenueData _ _ _).
Qed.

(** X9 (the competitors flag). Excluding the competitors changes neither
    the requests issued nor the cache; the results are those of the call
    that includes them, with [competitive_analysis] deleted from each
    essential record and each [null] turned into a failure, and the
    failures kept. *)
Theorem X9_competitors_flag appIds country w :
  let with_them := revenue_tool env p appIds true country w in
  let without := revenue_tool env p appIds false country w in
  without.2 = with_them.2 /\
  exists s,
    with_them.1 = Ok (SummaryContent s) /\
    without.1
    = Ok (SummaryContent {|
        total_apps := total_apps s;
        successful := length (filter (fun r => success r = true) (stripped <$> apps s));
        failed := length (filter (fun r => success r = false) (stripped <$> apps s));
        apps := stripped <$> apps s |}).
Proof.
  intros with_them without. subst with_them without.
  destruct (revenue_tool_run appIds true country w) as (rs & Hrun & Hout).
  destruct (revenue_tool_run appIds false country w) as (rs' & Hrun' & Hout').
  destruct (for_of_stripped country (as_array appIds) [] w) as (rs0 & w' & Ht & Hf).
  cbn [fmap list_fmap] in Hf.
  rewrite Hrun in Ht. rewrite Hrun' in Hf.
  injection Ht as <- <-. injection Hf as -> Hw.
  split; [done|]. eexists. split; [exact Hout|]. by rewrite Hout'.
Qed.

End BatchComposition.

(** ** More on the extractor *)

Section ExtractorEdges.
Context {host : Host}.

(** The identity part of the record. *)
Lemma essential_of_app_info rawData platform identifier e :
  truthy rawData = true ->
  essential_of rawData platform identifier = Ok e ->
  app_info e
  = {| app_info_id := if String.eqb platform "ios" then get rawData "app_id"
                      else get rawData "package_name" ||| identifier;
       app_info_name := get rawData "name" ||| get rawData "title";
       publisher := get rawData "publisher_name" ||| get rawData "developer";
       app_info_platform := platform;
       category := opt_get (opt_get0 (get rawData "categories")) "name" ||| VStr "Unknown";
       content_rating := get rawData "content_rating";
       current_version := get rawData "current_version" |}.
Proof.
  intros Hraw. unfold essential_of.
  rewrite !(dot_truthy rawData _ Hraw). cbn [mbind result_bind].
  destruct (formatRevenue _); [|done]. cbn [mbind result_bind].
  destruct (top_countries_of _); [|done]. cbn [mbind result_bind].
  destruct (extractCategoryRankings _ _); [|done]. cbn [mbind result_bind].
  destruct (extractTopIAPPrices _); [|done]. cbn [mbind result_bind].
  destruct (top_competitors_of _); [|done]. cbn [mbind result_bind].
  by intros [= <-].
Qed.

(** X10 (the identifier argument). For the platform ['ios'] the
    identifier is never used: the id of the record is the [app_id] of the
    payload, present or not. For any other platform the id is the
    [package_name] of the payload, and the identifier when that is
    falsy. *)
Theorem X10_identifier_fallback rawData :
  (forall identifier1 identifier2,
     extractEssentialRevenueData rawData "ios" identifier1
     = extractEssentialRevenueData rawData "ios" identifier2) /\
  (forall identifier e,
     extractEssentialRevenueData rawData "ios" identifier = Ok (ExEssential e) ->
     app_info_id (app_info e) = get rawData "app_id") /\
  (forall platform identifier e,
     platform <> "ios" ->
     extractEssentialRevenueData rawData platform identifier = Ok (ExEssential e) ->
     app_info_id (app_info e)
     = if truthy (get rawData "package_name") then get rawData "package_name"
       else identifier).
Proof.
  split; [|split].
  - intros identifier1 identifier2. reflexivity.
  - intros identifier e [Hraw He]%extract_essential_inv.
    by rewrite (essential_of_app_info _ _ _ _ Hraw He).
  - intros platform identifier e Hp [Hraw He]%extract_essential_inv.
    rewrite (essential_of_app_info _ _ _ _ Hraw He). cbn.
    by apply String.eqb_neq in Hp as ->.
Qed.

(** X11 (a null among the competitors). When one of the first three
    entries of [related_apps] is null, the whole extraction is degraded:
    the caller gets the error object and none of the other data, also
    when it asked for no competitors. *)
Theorem X11_null_competitor_degrades rawData platform identifier apps :
  get rawData "related_apps" = VArr apps ->
  Exists (fun app => nullish app = true) (take 3 apps) ->
  truthy rawData = true ->
  exists error,
    extractEssentialRevenueData rawData platform identifier = Ok (ExDegraded error true) /\
    forall includeCompetitors,
      drop_competitors includeCompetitors (ExDegraded error true)
      = Ok (ExDegraded error true).
Proof.
  intros Happs Hnull Hraw.
  assert (Hthrow : exists e, essential_of rawData platform identifier = Throw e).
  { unfold essential_of.
    rewrite !(dot_truthy rawData _ Hraw). cbn [mbind result_bind].
    destruct (formatRevenue _); [|by eexists]. cbn [mbind result_bind].
    destruct (top_countries_of _); [|by eexists]. cbn [mbind result_bind].
    destruct (extractCategoryRankings _ _); [|by eexists]. cbn [mbind result_bind].
    destruct (extractTopIAPPrices _); [|by eexists]. cbn [mbind result_bind].
    rewrite Happs.
    destruct (mapM_throws competitor_of (take 3 apps)) as [e He].
    { eapply Exists_impl; [exact Hnull|]. intros app Happ.
      eexists. by apply competitor_of_null. }
    exists e. cbn. by rewrite He. }
  destruct Hthrow as [e He]. eexists. split.
  - unfold extractEssentialRevenueData. rewrite Hraw, He. reflexivity.
  - by intros [].
Qed.

(** X12 (top countries). In an essential record, [top_countries] is the
    first three countries of an array in the payload, the empty array
    when the payload has none, and never longer than three. *)
Theorem X12_top_countries_bounded rawData platform identifier e :
  extractEssentialRevenueData rawData platform identifier = Ok (ExEssential e) ->
  (forall countries,
     get rawData "top_countries" = VArr countries ->
     top_countries (market_position e) = VArr (take 3 countries)) /\
  (nullish (get rawData "top_countries") = true ->
   top_countries (market_position e) = VArr []) /\
  ((exists l, top_countries (market_position e) = VArr l /\ (length l <= 3)%nat) \/
   (exists s, top_countries (market_position e) = VStr s /\ (String.length s <= 3)%nat)).
Proof.
  intros [Hraw He]%extract_essential_inv.
  apply essential_of_inv in He; [|done].
  destruct He as (? & countries & ? & ? & ? & _ & Hc & _ & _ & _ & _ & _ & -> & _).
  unfold top_countries_of in Hc.
  destruct (get rawData "top_countries") as [| |b|num|s|l|props] eqn:Htc;
    cbn in Hc; try done; injection Hc as <-.
  - split; [done|]. split; [done|]. left. exists []. split; [done|]. cbn. lia.
  - split; [done|]. split; [done|]. left. exists []. split; [done|]. cbn. lia.
  - split; [done|]. split; [done|].
    unfold or_else. destruct (truthy (VStr (substring 0 3 s))).
    + right. eexists. split; [done|].
      clear. generalize 3%nat. induction s as [|c s IH]; intros [|n]; cbn; try lia.
      specialize (IH n). lia.
    + left. exists []. split; [done|]. cbn. lia.
  - split; [by intros ? [= <-]|]. split; [done|].
    left. eexists. split; [done|]. rewrite length_take. lia.
Qed.

(** X13 (malformed purchases). [extractTopIAPPrices] returns the empty
    list when the purchases or their [US] bucket are absent, when the
    bucket is no array, and when one of its first three entries is null:
    the prices of the other entries are then lost. *)
Theorem X13_malformed_purchases_give_no_price iapData :
  (truthy iapData = false -> extractTopIAPPrices iapData = Ok []) /\
  (truthy (get iapData "US") = false -> extractTopIAPPrices iapData = Ok []) /\
  ((forall us, get iapData "US" <> VArr us) -> extractTopIAPPrices iapData = Ok []) /\
  (forall us,
     get iapData "US" = VArr us ->
     Exists (fun iap => nullish iap = true) (take 3 us) ->
     extractTopIAPPrices iapData = Ok []).
Proof.
  unfold extractTopIAPPrices.
  destruct (truthy iapData) eqn:Hi; cbn [negb]; [|done].
  rewrite (dot_truthy _ _ Hi). cbn [mbind result_bind].
  split; [done|]. split; [by intros ->|]. split.
  - intros Hus. destruct (truthy (get iapData "US")); [|done].
    destruct (get iapData "US") as [| | | | |us|]; try done. by destruct (Hus us).
  - intros us -> Hnull. cbn.
    destruct (mapM_throws (fun iap => dot iap "price") (take 3 us)) as [e ->]; [|done].
    eapply Exists_impl; [exact Hnull|]. intros iap Hiap.
    eexists. unfold dot. by rewrite Hiap.
Qed.

End ExtractorEdges.

(** ** The digits of a formatted revenue *)

Section FormatDigits.
Context {host : Host}.

Lemma append_assoc (a b c : string) : (a +:+ b) +:+ c = a +:+ (b +:+ c).
Proof. induction a as [|x a IH]; [done|]. simpl_append. by rewrite IH. Qed.

Lemma length_append (a b : string) :
  String.length (a +:+ b) = (String.length a + String.length b)%nat.
Proof. induction a as [|x a IH]; [done|]. simpl_append. cbn. by rewrite IH. Qed.

Lemma substring_all (a : string) : substring 0 (String.length a) a = a.
Proof. induction a as [|x a IH]; [done|]. cbn. by rewrite IH. Qed.

Lemma substring_append_l (a b : string) : substring 0 (String.length a) (a +:+ b) = a.
Proof.
  induction a as [|x a IH]; [by destruct b|]. simpl_append. cbn. by rewrite IH.
Qed.

Lemma substring_append_r (a b : string) n :
  substring (String.length a) n (a +:+ b) = substring 0 n b.
Proof. induction a as [|x a IH]; [done|]. simpl_append. cbn. by rewrite IH. Qed.

Lemma pretty_N_go_append (x : N) : forall s, pretty_N_go x s = pretty_N_go x "" +:+ s.
Proof.
  induction (N.lt_wf_0 x) as [x _ IH]; intros s.
  destruct (decide (x = 0)%N) as [->|Hx]; [by rewrite !pretty_N_go_0|].
  rewrite !(pretty_N_go_step x) by lia.
  rewrite (IH (x `div` 10)%N) by (apply N.div_lt; lia).
  rewrite (IH (x `div` 10)%N ltac:(apply N.div_lt; lia) (String _ "")).
  by rewrite append_assoc.
Qed.

Lemma pretty_N_digit (x : N) : (x < 10)%N -> pretty x = String (pretty_N_char x) "".
Proof.
  intros Hx. unfold pretty, pretty_N. case_decide as H0; [by subst|].
  rewrite pretty_N_go_step by lia.
  rewrite N.div_small, N.mod_small by done. by rewrite pretty_N_go_0.
Qed.

Lemma pretty_N_split (x : N) :
  (10 <= x)%N ->
  pretty x = pretty (x `div` 10)%N +:+ String (pretty_N_char (x `mod` 10)) "".
Proof.
  intros Hx. unfold pretty, pretty_N.
  assert (x `div` 10 <> 0)%N by (intros H%N.div_small_iff; lia).
  repeat case_decide; try lia.
  rewrite pretty_N_go_step by lia. apply pretty_N_go_append.
Qed.

Lemma pretty_N_nonempty (x : N) : (1 <= String.length (pretty x))%nat.
Proof.
  destruct (decide (x < 10)%N) as [Hx|Hx].
  - by rewrite (pretty_N_digit x Hx).
  - rewrite (pretty_N_split x) by lia. rewrite length_append. cbn. lia.
Qed.

Lemma pretty_Z_N (n : Z) : 0 <= n -> pretty n = pretty (Z.to_N n).
Proof. intros Hn. by destruct n. Qed.

(** The digits of [n] with a point before the last one are the digits of
    [n / 10], a point and the digit [n mod 10]. *)
Lemma fixed_digits_1 (n : Z) :
  0 <= n -> fixed_digits 1 n = pretty (n / 10) +:+ "." +:+ pretty (n mod 10).
Proof.
  intros Hn. unfold fixed_digits.
  rewrite !pretty_Z_N by (try apply Z.div_pos; try apply Z.mod_pos_bound; lia).
  rewrite Z2N.inj_div, Z2N.inj_mod by lia. change (Z.to_N 10) with 10%N.
  set (x := Z.to_N n). clearbody x. clear.
  rewrite (pretty_N_digit (x `mod` 10)) by (apply N.mod_lt; lia).
  destruct (decide (x < 10)%N) as [Hx|Hx].
  - rewrite (pretty_N_digit x Hx), N.div_small, N.mod_small by done. reflexivity.
  - rewrite (pretty_N_split x) by lia.
    set (a := pretty (x `div` 10)%N). set (c := pretty_N_char (x `mod` 10)).
    assert (Ha : (1 <= String.length a)%nat) by apply pretty_N_nonempty.
    rewrite !length_append. cbn [String.length].
    destruct (Nat.leb_spec (String.length a + 1) 1); [lia|].
    rewrite !length_append. cbn [String.length].
    replace (String.length a + 1 - 1)%nat with (String.length a) by lia.
    by rewrite substring_append_l, substring_append_r.
Qed.

Lemma nearest_scaled_nonneg f m e : 0 <= nearest_scaled f m e.
Proof.
  unfold nearest_scaled.
  pose proof (Z.pow_nonneg 10 (Z.of_nat f) ltac:(lia)) as H10.
  assert (0 <= Z.pos m * 10 ^ Z.of_nat f) by nia.
  destruct (Z.leb_spec 0 e).
  - pose proof (Z.pow_nonneg 2 e ltac:(lia)). nia.
  - apply Z.div_pos; [|apply Z.pow_pos_nonneg; lia].
    pose proof (Z.pow_nonneg 2 (- e) ltac:(lia)). lia.
Qed.

(** X14 (one decimal). In the [K] branch, when the scaled amount
    [dollars / 1000] is the positive finite number [m * 2^e] below 10^21,
    the string is [$], the digits of [t / 10], a point, the one digit
    [t mod 10] and [K], where [t] is the number of tenths nearest to the
    scaled amount; likewise with [M] and [dollars / 1000000]. *)
Theorem X14_one_decimal cents m e :
  truthy (VNum cents) = true ->
  at_least_1e21 m e = false ->
  let dollars := num_div cents (of_Z 100) in
  let tenths := nearest_scaled 1 m e in
  (num_ge dollars (of_Z 1000000) = false ->
   num_ge dollars (of_Z 1000) = true ->
   num_div dollars (of_Z 1000) = S754_finite false m e ->
   formatRevenue (VNum cents)
   = Ok ("$" +:+ pretty (tenths / 10) +:+ "." +:+ pretty (tenths mod 10) +:+ "K")) /\
  (num_ge dollars (of_Z 1000000) = true ->
   num_div dollars (of_Z 1000000) = S754_finite false m e ->
   formatRevenue (VNum cents)
   = Ok ("$" +:+ pretty (tenths / 10) +:+ "." +:+ pretty (tenths mod 10) +:+ "M")).
Proof.
  intros Hc Hbig dollars tenths.
  assert (Hno : no_revenue (VNum cents) = false).
  { unfold no_revenue. rewrite Hc. by destruct cents as [?|[]| |[] ? ?]. }
  assert (Hfix : toFixed 1 (S754_finite false m e)
                 = pretty (tenths / 10) +:+ "." +:+ pretty (tenths mod 10)).
  { unfold toFixed. rewrite Hbig. simpl_append.
    apply fixed_digits_1, nearest_scaled_nonneg. }
  unfold formatRevenue. rewrite Hno. cbn [ToNumber mbind result_bind]. fold dollars.
  split.
  - intros -> -> ->. rewrite Hfix. by rewrite !append_assoc.
  - intros -> ->. rewrite Hfix. by rewrite !append_assoc.
Qed.

End FormatDigits.

(** ** The cache across the tools *)

Section CacheAcrossTools.
Context {host : Host} (env : Env).

Lemma for_of_other_keys {Id} (p : Platform Id) includeCompetitors country k ids :
  forall acc w,
  (forall i, i ∈ ids -> k <> finalCacheKey (cacheKey_of p i) country) ->
  sensorTowerCache (for_of env p includeCompetitors country ids acc w).2 !! k
  = sensorTowerCache w !! k.
Proof.
  induction ids as [|i ids IH]; intros acc w Hk; cbn [for_of]; [done|].
  cbv [mbind M_bind]. rewrite process_one_recorded, attempt_run. cbn [snd].
  rewrite IH by (intros j Hj; apply Hk; by right).
  apply call_other_keys, Hk. by left.
Qed.

(** X15 (frame of a batch). A tool call leaves every cache entry alone
    whose key is not the final key of one of its identifiers. *)
Theorem X15_batch_frame {Id} (p : Platform Id) appIds includeCompetitors country w :
  (forall k,
     (forall i, i ∈ as_array appIds -> k <> finalCacheKey (cacheKey_of p i) country) ->
     sensorTowerCache (revenue_tool env p appIds includeCompetitors country w).2 !! k
     = sensorTowerCache w !! k).
Proof.
  intros k Hk.
  destruct (revenue_tool_run env p appIds includeCompetitors country w) as (rs & Hrun & _).
  rewrite <- (for_of_other_keys p includeCompetitors country k (as_array appIds) [] w Hk).
  by rewrite Hrun.
Qed.

Lemma ios_key_is_no_android_key appId packageName country1 country2 :
  finalCacheKey (cacheKey_of ios appId) country1
  <> finalCacheKey (cacheKey_of android packageName) country2.
Proof. rewrite !finalCacheKey_suffix. done. Qed.

(** X16 (the two tools). The iOS tool never changes what is cached for an
    Android package, and the Android tool never changes what is cached
    for an iOS app, whatever the regions. *)
Theorem X16_tools_do_not_interfere appIds packageNames includeCompetitors country w :
  (forall packageName country',
     sensorTowerCache (revenue_tool env ios appIds includeCompetitors country w).2
       !! finalCacheKey (cacheKey_of android packageName) country'
     = sensorTowerCache w !! finalCacheKey (cacheKey_of android packageName) country') /\
  (forall appId country',
     sensorTowerCache (revenue_tool env android packageNames includeCompetitors country w).2
       !! finalCacheKey (cacheKey_of ios appId) country'
     = sensorTowerCache w !! finalCacheKey (cacheKey_of ios appId) country').
Proof.
  split.
  - intros packageName country'.
    destruct (revenue_tool_run env ios appIds includeCompetitors country w)
      as (rs & Hrun & _).
    rewrite <- (for_of_other_keys ios includeCompetitors country _ (as_array appIds) [] w).
    + by rewrite Hrun.
    + intros i _ H. by apply (ios_key_is_no_android_key i packageName country country').
  - intros appId country'.
    destruct (revenue_tool_run env android packageNames includeCompetitors country w)
      as (rs & Hrun & _).
    rewrite <- (for_of_other_keys android includeCompetitors country _
                  (as_array packageNames) [] w).
    + by rewrite Hrun.
    + intros i _ H. by apply (ios_key_is_no_android_key appId i country' country).
Qed.

End CacheAcrossTools.

(** ** Outages, warm caches and odd payloads *)

Section BatchScenarios.
Context {host : Host} (env : Env) {Id : Type} (p : Platform Id).
Context (includeCompetitors : bool) (country : option string).

Lemma for_of_outage ids :
  (forall n req, exists e, settle (network env n req) = Throw e) ->
  forall acc w,
  (forall i, i ∈ ids ->
     sensorTowerCache w !! finalCacheKey (cacheKey_of p i) country = None) ->
  exists fails w',
    for_of env p includeCompetitors country ids acc w = (Ok (acc ++ fails), w') /\
    Forall (fun r => success r = false) fails /\
    length fails = length ids /\
    sensorTowerCache w' = sensorTowerCache w /\
    requests w' = requests w ++ ((fun i => request_of (endpoint_of p i) country) <$> ids).
Proof.
  intros Hdown.
  induction ids as [|i ids IH]; intros acc w Hcold; cbn [for_of].
  - exists [], w. by rewrite !app_nil_r.
  - cbv [mbind M_bind]. rewrite process_one_recorded, attempt_run.
    assert (Hv : valid_entry env w (finalCacheKey (cacheKey_of p i) country) = None).
    { unfold valid_entry. rewrite Hcold; [done|by left]. }
    rewrite (call_miss env _ _ _ _ Hv).
    destruct (Hdown (length (requests w)) (request_of (endpoint_of p i) country))
      as [e ->]. cbn [fst snd].
    match goal with |- context [for_of _ _ _ _ ids ?a ?w1] =>
      destruct (IH a w1) as (fails & w' & Hrun & Hfails & Hlen & Hcache & Hreq) end.
    { intros j Hj. cbn. apply Hcold. by right. }
    exists (EntryFailed i (err_message (rethrown e)) :: fails), w'.
    rewrite Hrun, <- app_assoc. split; [done|]. split; [by constructor|].
    split; [cbn; by rewrite Hlen|]. split; [done|].
    rewrite Hreq. cbn. by rewrite <- app_assoc.
Qed.

(** X17 (outage). When every request fails (rejected, answered with a
    failing status or with a body that is no JSON) and nothing is cached
    for the identifiers, a tool call issues exactly one request per
    identifier, in input order and also for an identifier that is
    repeated, records every identifier as a failure and leaves the cache
    as it was. *)
Theorem X17_outage appIds w :
  (forall n req, exists e, settle (network env n req) = Throw e) ->
  (forall i, i ∈ as_array appIds ->
     sensorTowerCache w !! finalCacheKey (cacheKey_of p i) country = None) ->
  let out := revenue_tool env p appIds includeCompetitors country w in
  requests out.2
  = requests w ++ ((fun i => request_of (endpoint_of p i) country) <$> as_array appIds) /\
  sensorTowerCache out.2 = sensorTowerCache w /\
  exists s,
    out.1 = Ok (SummaryContent s) /\
    successful s = 0%nat /\
    failed s = length (as_array appIds).
Proof.
  intros Hdown Hcold out. subst out.
  destruct (revenue_tool_run env p appIds includeCompetitors country w)
    as (rs & Hrun & Hout).
  destruct (for_of_outage (as_array appIds) Hdown [] w Hcold)
    as (fails & w' & Hrun' & Hfails & Hlen & Hcache & Hreq).
  rewrite Hrun in Hrun'. cbn in Hrun'. injection Hrun' as -> ->.
  split; [done|]. split; [done|].
  eexists. split; [exact Hout|]. cbn [successful failed].
  clear -Hfails Hlen. rewrite <- Hlen. clear Hlen.
  induction Hfails as [|r fails Hr _ [IH1 IH2]]; [done|].
  rewrite !filter_cons. rewrite Hr.
  rewrite decide_False by done. rewrite decide_True by done.
  split; [done|]. cbn. by rewrite IH2.
Qed.

Lemma for_of_warm ids : forall acc w,
  (forall i, i ∈ ids ->
     exists entry,
       sensorTowerCache w !! finalCacheKey (cacheKey_of p i) country = Some entry /\
       forall n, (clock_reads w <= n < clock_reads w + length ids)%nat ->
         clock env n - timestamp entry < CACHE_DURATION) ->
  exists rs w',
    for_of env p includeCompetitors country ids acc w = (Ok (acc ++ rs), w') /\
    sensorTowerCache w' = sensorTowerCache w /\
    requests w' = requests w /\
    clock_reads w' = (clock_reads w + length ids)%nat /\
    Forall2 (fun i r =>
               exists entry,
                 sensorTowerCache w !! finalCacheKey (cacheKey_of p i) country
                 = Some entry /\
                 r = recorded i
                       (extractEssentialRevenueData (data entry) (platform_name p)
                          (id_value p i)
                        ≫= drop_competitors includeCompetitors))
            ids rs.
Proof.
  induction ids as [|i ids IH]; intros acc w Hwarm; cbn [for_of].
  - exists [], w. rewrite app_nil_r, Nat.add_0_r. repeat split; by try constructor.
  - cbv [mbind M_bind]. rewrite process_one_recorded, attempt_run.
    destruct (Hwarm i ltac:(by left)) as (entry & Hentry & Hyoung).
    assert (Hv : valid_entry env w (finalCacheKey (cacheKey_of p i) country) = Some entry).
    { unfold valid_entry. rewrite Hentry.
      destruct (Z.ltb_spec (clock env (clock_reads w) - timestamp entry) CACHE_DURATION);
        [done|]. specialize (Hyoung (clock_reads w)). cbn in Hyoung. lia. }
    rewrite (call_hit env _ _ _ _ entry Hv). unfold checked. rewrite Hentry.
    cbn [fst snd].
    match goal with |- context [for_of _ _ _ _ ids ?a ?w1] =>
      destruct (IH a w1) as (rs & w' & Hrun & Hcache & Hreq & Hreads & Hrs) end.
    { intros j Hj. cbn.
      destruct (Hwarm j ltac:(by right)) as (entry' & Hentry' & Hyoung').
      exists entry'. split; [done|]. intros n Hn. apply Hyoung'. cbn. lia. }
    cbn in Hcache, Hreq, Hreads, Hrs.
    eexists (_ :: rs), w'. rewrite Hrun, <- app_assoc.
    split; [done|]. split; [done|]. split; [done|]. split; [cbn; lia|].
    constructor; [|done]. by exists entry.
Qed.

(** X18 (warm cache). When every identifier of a batch has an entry that
    stays young at each clock reading of the batch, the tool call issues
    no request and leaves the cache as it was, and the result of each
    identifier is extracted from its cached payload. *)
Theorem X18_warm_cache appIds w :
  (forall i, i ∈ as_array appIds ->
     exists entry,
       sensorTowerCache w !! finalCacheKey (cacheKey_of p i) country = Some entry /\
       forall n, (clock_reads w <= n < clock_reads w + length (as_array appIds))%nat ->
         clock env n - timestamp entry < CACHE_DURATION) ->
  let out := revenue_tool env p appIds includeCompetitors country w in
  requests out.2 = requests w /\
  sensorTowerCache out.2 = sensorTowerCache w /\
  exists s,
    out.1 = Ok (SummaryContent s) /\
    Forall2 (fun i r =>
               exists entry,
                 sensorTowerCache w !! finalCacheKey (cacheKey_of p i) country
                 = Some entry /\
                 r = recorded i
                       (extractEssentialRevenueData (data entry) (platform_name p)
                          (id_value p i)
                        ≫= drop_competitors includeCompetitors))
            (as_array appIds) (apps s).
Proof.
  intros Hwarm out. subst out.
  destruct (revenue_tool_run env p appIds includeCompetitors country w)
    as (rs & Hrun & Hout).
  destruct (for_of_warm (as_array appIds) [] w Hwarm)
    as (rs' & w' & Hrun' & Hcache & Hreq & _ & Hrs).
  rewrite Hrun in Hrun'. cbn in Hrun'. injection Hrun' as -> ->.
  split; [done|]. split; [done|]. eexists. split; [exact Hout|]. exact Hrs.
Qed.

End BatchScenarios.

Section OddPayloads.
Context {host : Host}.

(** X19 (payloads that are no objects). A truthy payload that is no
    object (a number, [true], a non-empty string, an array) is not
    rejected: it is extracted like the empty object, into a record of
    defaults. *)
Theorem X19_non_object_payload rawData platform identifier :
  truthy rawData = true ->
  (forall props, rawData <> VObj props) ->
  extractEssentialRevenueData rawData platform identifier
  = extractEssentialRevenueData (VObj []) platform identifier.
Proof.
  intros Hraw Hobj. unfold extractEssentialRevenueData. rewrite Hraw. cbn [negb truthy].
  assert (Hget : forall k, String.eqb k "length" = false -> get rawData k = VUndef).
  { intros k Hk. destruct rawData as [| | | | | |props]; cbn; rewrite ?Hk; try done.
    by destruct (Hobj props). }
  unfold essential_of. rewrite !(dot_truthy rawData _ Hraw).
  rewrite !(dot_truthy (VObj []) _ eq_refl).
  by rewrite !Hget.
Qed.

End OddPayloads.

(** ** Whole cents at the thresholds

    [cents / 100] is rounded to 53 binary digits before it is compared
    with 1000 and 1000000; for a whole number of cents the rounding
    never moves an amount across a threshold. *)

Section WholeCents.
Context {host : Host}.

(** [digits2_pos p] is the number of binary digits of [p]. *)
Lemma digits2_pos_bounds (p : positive) :
  2 ^ (Z.pos (digits2_pos p) - 1) <= Z.pos p < 2 ^ Z.pos (digits2_pos p).
Proof.
  induction p as [p IH|p IH|]; cbn [digits2_pos]; [| |done].
  - rewrite Pos2Z.inj_succ.
    replace (Z.succ (Z.pos (digits2_pos p)) - 1) with (Z.succ (Z.pos (digits2_pos p) - 1)) by lia.
    rewrite !Z.pow_succ_r by lia. lia.
  - rewrite Pos2Z.inj_succ.
    replace (Z.succ (Z.pos (digits2_pos p)) - 1) with (Z.succ (Z.pos (digits2_pos p) - 1)) by lia.
    rewrite !Z.pow_succ_r by lia. lia.
Qed.

Lemma digits2_pos_unique (p : positive) (k : Z) :
  2 ^ (k - 1) <= Z.pos p < 2 ^ k -> Z.pos (digits2_pos p) = k.
Proof.
  intros [Hlo Hhi]. pose proof (digits2_pos_bounds p) as [Hlo' Hhi'].
  assert (0 < k).
  { destruct (Z.lt_ge_cases 0 k); [done|].
    assert (2 ^ k <= 2 ^ 0) by (apply Z.pow_le_mono_r; lia). lia. }
  destruct (Z.lt_trichotomy (Z.pos (digits2_pos p)) k) as [Hlt|[Heq|Hgt]]; [|done|].
  - assert (2 ^ Z.pos (digits2_pos p) <= 2 ^ (k - 1)) by (apply Z.pow_le_mono_r; lia). lia.
  - assert (2 ^ k <= 2 ^ (Z.pos (digits2_pos p) - 1)) by (apply Z.pow_le_mono_r; lia). lia.
Qed.

Lemma fexp_normal (d e : Z) :
  -1000 <= e -> 53 <= d -> fexp prec emax (d + e) - e = d - 53.
Proof. intros He Hd. unfold fexp, emin, prec, emax. lia. Qed.

Lemma loc_of_record_of_loc m l : loc_of_shr_record (shr_record_of_loc m l) = l.
Proof. by destruct l as [|[]]. Qed.

Lemma shr_m_record_of_loc m l : shr_m (shr_record_of_loc m l) = m.
Proof. by destruct l as [|[]]. Qed.

Lemma round_nearest_even_bounds m l : m <= round_nearest_even m l <= m + 1.
Proof. destruct l as [|[]]; cbn; try lia. destruct (Z.even m); lia. Qed.

(** A mantissa of 53 digits is not shifted. *)
Lemma shr_fexp_53 (m : positive) e l :
  2 ^ 52 <= Z.pos m < 2 ^ 53 -> -1000 <= e ->
  shr_fexp prec emax (Z.pos m) e l = (shr_record_of_loc (Z.pos m) l, e).
Proof.
  intros Hm He. unfold shr_fexp. cbn [Zdigits2].
  rewrite (digits2_pos_unique m 53) by done.
  rewrite fexp_normal by lia. reflexivity.
Qed.

(** A mantissa of 54 digits is shifted by one. *)
Lemma shr_fexp_54 (m : positive) e l :
  2 ^ 53 <= Z.pos m < 2 ^ 54 -> -1000 <= e ->
  shr_fexp prec emax (Z.pos m) e l = (shr_1 (shr_record_of_loc (Z.pos m) l), e + 1).
Proof.
  intros Hm He. unfold shr_fexp. cbn [Zdigits2].
  rewrite (digits2_pos_unique m 54) by done.
  rewrite fexp_normal by lia. reflexivity.
Qed.

Lemma shr_m_shr_1 (m : positive) l :
  2 <= Z.pos m -> shr_m (shr_1 (shr_record_of_loc (Z.pos m) l)) = Z.pos m / 2.
Proof.
  intros Hm.
  assert (shr_m (shr_1 (shr_record_of_loc (Z.pos m) l)) = Z.div2 (Z.pos m)) as ->.
  { destruct m as [p|p|]; [| |lia]; by destruct l as [|[]]. }
  by rewrite Z.div2_div.
Qed.

(** The last stage of [binary_round_aux], on a rounded mantissa. *)
Lemma round_stage2 (m1 : positive) e :
  2 ^ 52 <= Z.pos m1 <= 2 ^ 53 -> -1000 <= e <= 950 ->
  exists (mz : positive) (k : Z),
    (let '(mrs, e'') := shr_fexp prec emax (Z.pos m1) e loc_Exact in
     match shr_m mrs with
     | Z0 => S754_zero false
     | Zpos m => if e'' <=? emax - prec then S754_finite false m e'' else S754_infinity false
     | Zneg _ => S754_nan
     end) = S754_finite false mz (e + k) /\
    2 ^ 52 <= Z.pos mz < 2 ^ 53 /\
    ((k = 0 /\ mz = m1) \/ (k = 1 /\ Z.pos m1 = 2 ^ 53 /\ Z.pos mz = 2 ^ 52)).
Proof.
  intros Hm He.
  destruct (Z.lt_ge_cases (Z.pos m1) (2 ^ 53)) as [Hlt|Hge].
  - exists m1, 0. rewrite shr_fexp_53 by lia. cbn [shr_m shr_record_of_loc].
    destruct (Z.leb_spec e (emax - prec)); [|unfold emax, prec in *; lia].
    rewrite Z.add_0_r. split; [done|]. split; [lia|]. by left.
  - assert (Z.pos m1 = 2 ^ 53) as Heq by lia.
    rewrite shr_fexp_54 by lia. rewrite shr_m_shr_1 by lia.
    rewrite Heq. change (2 ^ 53 / 2) with (Z.pos (2 ^ 52)).
    exists (2 ^ 52)%positive, 1.
    destruct (Z.leb_spec (e + 1) (emax - prec)); [|unfold emax, prec in *; lia].
    split; [done|]. split; [done|]. right. done.
Qed.

(** Rounding a mantissa of 53 or 54 digits. *)
Lemma binary_round_aux_normal (q : positive) (e : Z) (l : location) :
  2 ^ 52 <= Z.pos q < 2 ^ 54 ->
  -1000 <= e <= 900 ->
  exists (mz : positive) (n : Z),
    binary_round_aux prec emax false (Z.pos q) e l = S754_finite false mz (e + n) /\
    0 <= n <= 2 /\
    2 ^ 52 <= Z.pos mz < 2 ^ 53 /\
    Z.pos q / 2 ^ n <= Z.pos mz <= Z.pos q / 2 ^ n + 1.
Proof.
  intros Hq He. unfold binary_round_aux.
  destruct (Z.lt_ge_cases (Z.pos q) (2 ^ 53)) as [Hlt|Hge].
  - rewrite shr_fexp_53 by lia.
    rewrite shr_m_record_of_loc, loc_of_record_of_loc.
    pose proof (round_nearest_even_bounds (Z.pos q) l) as Hr.
    destruct (round_nearest_even (Z.pos q) l) as [|m1|] eqn:Hm1; try lia.
    destruct (round_stage2 m1 e ltac:(lia) ltac:(lia)) as (mz & k & Hres & Hmz & Hk).
    exists mz, k. split; [exact Hres|].
    destruct Hk as [[-> ->]|(-> & Hm & Hz)].
    + split; [lia|]. split; [done|]. rewrite Z.pow_0_r, Z.div_1_r. lia.
    + split; [lia|]. split; [done|].
      assert (Z.pos q = 2 ^ 53 - 1) as -> by lia. rewrite Hz. done.
  - rewrite shr_fexp_54 by lia.
    pose proof (shr_m_shr_1 q l ltac:(lia)) as Hhalf.
    assert (Hp : 2 ^ 52 <= Z.pos q / 2 < 2 ^ 53).
    { split; [apply Z.div_le_lower_bound; lia|apply Z.div_lt_upper_bound; lia]. }
    set (mrs := shr_1 (shr_record_of_loc (Z.pos q) l)) in *.
    pose proof (round_nearest_even_bounds (shr_m mrs) (loc_of_shr_record mrs)) as Hr.
    destruct (round_nearest_even (shr_m mrs) (loc_of_shr_record mrs)) as [|m1|] eqn:Hm1;
      try lia.
    destruct (round_stage2 m1 (e + 1) ltac:(lia) ltac:(lia)) as (mz & k & Hres & Hmz & Hk).
    exists mz, (1 + k). rewrite Z.add_assoc. split; [exact Hres|].
    destruct Hk as [[-> ->]|(-> & Hm & Hz)].
    + split; [lia|]. split; [done|]. change (2 ^ (1 + 0)) with 2. lia.
    + split; [lia|]. split; [done|]. change (2 ^ (1 + 1)) with 4.
      assert (Z.pos q / 2 = 2 ^ 53 - 1) as Hq2 by lia.
      assert (Z.pos q / 4 = 2 ^ 52 - 1) as ->.
      { replace 4 with (2 * 2) by lia. rewrite <- Z.div_div by lia. rewrite Hq2. done. }
      rewrite Hz. lia.
Qed.

(** A mantissa of 53 digits is kept as it is. *)
Lemma binary_round_aux_exact (m : positive) e :
  2 ^ 52 <= Z.pos m < 2 ^ 53 -> -1000 <= e <= 900 ->
  binary_round_aux prec emax false (Z.pos m) e loc_Exact = S754_finite false m e.
Proof.
  intros Hm He. unfold binary_round_aux.
  rewrite shr_fexp_53 by lia. cbn [shr_record_of_loc shr_m loc_of_shr_record round_nearest_even].
  rewrite shr_fexp_53 by lia. cbn [shr_record_of_loc shr_m].
  destruct (Z.leb_spec e (emax - prec)); [done|unfold emax, prec in *; lia].
Qed.

(** A positive integer below 2^53 is a number, with no rounding. *)
Lemma of_Z_pos (c : positive) :
  let d := Z.pos (digits2_pos c) in
  d <= 53 ->
  exists m : positive,
    of_Z (Z.pos c) = S754_finite false m (d - 53) /\
    Z.pos m = Z.pos c * 2 ^ (53 - d) /\ 2 ^ 52 <= Z.pos m < 2 ^ 53.
Proof.
  intros d Hd. pose proof (digits2_pos_bounds c) as Hc. fold d in Hc.
  assert (0 < d) by (subst d; lia).
  unfold of_Z, binary_normalize, binary_round, shl_align.
  fold d. replace (fexp prec emax (d + 0) - 0) with (d - 53)
    by (unfold fexp, emin, prec, emax; lia).
  destruct (d - 53) as [|p|p] eqn:Hp; [|lia|].
  - exists c. replace (53 - d) with 0 by lia. rewrite Z.mul_1_r.
    replace d with 53 in * by lia. split; [|done].
    replace (fexp prec emax (53 + 0)) with 0 by done.
    apply binary_round_aux_exact; [done|lia].
  - change (Pos.iter xO c p) with (shift_pos p c). exists (shift_pos p c).
    assert (Hsh : Z.pos (shift_pos p c) = Z.pos c * 2 ^ (53 - d)).
    { rewrite shift_pos_correct, Zpower_pos_nat, Zpower_nat_Z, positive_nat_Z.
      replace (53 - d) with (Z.pos p) by lia. lia. }
    assert (2 ^ 52 <= Z.pos (shift_pos p c) < 2 ^ 53) as Hb; [|split; [|done]].
    2: { replace (fexp prec emax (d + 0)) with (d - 53)
           by (unfold fexp, emin, prec, emax; lia).
         rewrite Hp. rewrite <- Hp. apply binary_round_aux_exact; [done|lia]. }
    rewrite Hsh.
    assert (H52 : 2 ^ 52 = 2 ^ (d - 1) * 2 ^ (53 - d))
      by (rewrite <- Z.pow_add_r by lia; f_equal; lia).
    assert (H53 : 2 ^ 53 = 2 ^ d * 2 ^ (53 - d))
      by (rewrite <- Z.pow_add_r by lia; f_equal; lia).
    rewrite H52, H53.
    assert (0 < 2 ^ (53 - d)) by (apply Z.pow_pos_nonneg; lia). nia.
Qed.

(** Dividing a number with a 53-digit mantissa by 100: the quotient of
    the mantissas, rounded to 53 digits. *)
Lemma num_div_100 (m1 : positive) (e1 : Z) :
  2 ^ 52 <= Z.pos m1 < 2 ^ 53 -> -60 <= e1 <= 0 ->
  exists (mz : positive) (n : Z),
    num_div (S754_finite false m1 e1) (of_Z 100) = S754_finite false mz (e1 - 7 + n) /\
    0 <= n <= 2 /\
    2 ^ 52 <= Z.pos mz < 2 ^ 53 /\
    Z.pos m1 * 128 / 100 / 2 ^ n <= Z.pos mz <= Z.pos m1 * 128 / 100 / 2 ^ n + 1.
Proof.
  intros Hm He.
  replace (of_Z 100) with (S754_finite false 7036874417766400 (-46)) by (by vm_compute).
  unfold num_div, SFdiv, SFdiv_core_binary. cbn [Zdigits2 xorb]. cbv zeta.
  rewrite (digits2_pos_unique m1 53) by done.
  change (Z.pos (digits2_pos 7036874417766400)) with 53.
  replace (Z.min _ _) with (e1 - 7) by (unfold fexp, emin, prec, emax; lia).
  replace (e1 - -46 - (e1 - 7)) with 53 by lia.
  rewrite Z.shiftl_mul_pow2 by done.
  assert (Hq : Z.pos m1 * 2 ^ 53 / 7036874417766400 = Z.pos m1 * 128 / 100).
  { change 7036874417766400 with (100 * 2 ^ 46).
    replace (Z.pos m1 * 2 ^ 53) with (Z.pos m1 * 128 * 2 ^ 46) by (change (2 ^ 53) with (128 * 2 ^ 46); lia).
    by rewrite Z.div_mul_cancel_r. }
  revert Hq. unfold Z.div at 1.
  destruct (Z.div_eucl _ _) as [q r]. intros ->.
  assert (Hb : 2 ^ 52 <= Z.pos m1 * 128 / 100 < 2 ^ 54).
  { split; [apply Z.div_le_lower_bound; lia|apply Z.div_lt_upper_bound; lia]. }
  destruct (Z.pos m1 * 128 / 100) as [|q|q] eqn:Eq; [lia| |lia].
  destruct (binary_round_aux_normal q (e1 - 7) (new_location 7036874417766400 r) Hb
              ltac:(lia)) as (mz & n & Hres & Hn & Hmz & Hbounds).
  by exists mz, n.
Qed.

(** Whole cents against a threshold of [T] dollars, where [100 * T] has
    [D] binary digits and [T] is the number [M * 2^(D - 60)]. *)
Lemma cents_threshold (T D : Z) (M c : positive) :
  D <= 50 ->
  2 ^ (D - 1) <= 100 * T < 2 ^ D ->
  Z.pos M = T * 2 ^ (60 - D) ->
  2 ^ 52 <= Z.pos M < 2 ^ 53 ->
  Z.pos c < 2 ^ 53 ->
  num_ge (num_div (of_Z (Z.pos c)) (of_Z 100)) (S754_finite false M (D - 60))
  = (100 * T <=? Z.pos c).
Proof.
  intros HD HT HM HMb Hc.
  pose proof (digits2_pos_bounds c) as Hd.
  pose proof (of_Z_pos c) as Hof. cbv zeta in Hof.
  assert (0 < Z.pos (digits2_pos c)) by lia.
  generalize dependent (Z.pos (digits2_pos c)). intros d Hd Hof ?.
  assert (d <= 53).
  { destruct (Z.le_gt_cases d 53) as [|Hgt]; [done|].
    assert (2 ^ 53 <= 2 ^ (d - 1)) by (apply Z.pow_le_mono_r; lia). lia. }
  destruct Hof as (m1 & -> & Hm1 & Hm1b); [done|].
  destruct (num_div_100 m1 (d - 53) Hm1b ltac:(lia)) as (mz & n & -> & Hn & Hmz & Hq).
  assert (Hm128 : Z.pos m1 * 128 = Z.pos c * 2 ^ (60 - d)).
  { rewrite Hm1. replace (60 - d) with (53 - d + 7) by lia.
    rewrite Z.pow_add_r by lia. change (2 ^ 7) with 128. lia. }
  set (q := Z.pos m1 * 128 / 100) in *.
  pose proof (Z.mul_div_le (Z.pos m1 * 128) 100 ltac:(lia)) as Hq100. fold q in Hq100.
  unfold num_ge. cbn [SFcompare].
  destruct (Z.leb_spec (100 * T) (Z.pos c)) as [Hge|Hlt].
  - assert (D <= d).
    { destruct (Z.le_gt_cases D d) as [|Hgt]; [done|].
      assert (2 ^ d <= 2 ^ (D - 1)) by (apply Z.pow_le_mono_r; lia). lia. }
    destruct (Z.compare_spec (d - 53 - 7 + n) (D - 60)) as [He|He|He]; [|lia|done].
    assert (d = D) by lia. assert (n = 0) by lia. subst d n.
    rewrite Z.pow_0_r, Z.div_1_r in Hq.
    assert (Z.pos M <= q).
    { apply Z.div_le_lower_bound; [lia|]. rewrite Hm128, HM, Z.mul_assoc.
      apply Z.mul_le_mono_nonneg_r; [apply Z.pow_nonneg|]; lia. }
    change (Pos.compare_cont Eq mz M) with (mz ?= M)%positive.
    destruct (Pos.compare_spec mz M); [done|lia|done].
  - assert (d <= D).
    { destruct (Z.le_gt_cases d D) as [|Hgt]; [done|].
      assert (2 ^ D <= 2 ^ (d - 1)) by (apply Z.pow_le_mono_r; lia). lia. }
    assert (Hn4 : 0 < 2 ^ n <= 4).
    { split; [apply Z.pow_pos_nonneg; lia|].
      change 4 with (2 ^ 2). apply Z.pow_le_mono_r; lia. }
    pose proof (Z.mul_div_le q (2 ^ n) ltac:(lia)) as Hqn.
    assert (HT' : Z.pos M * 2 ^ (D - d) = T * 2 ^ (60 - d)).
    { rewrite HM, <- Z.mul_assoc, <- Z.pow_add_r by lia. do 2 f_equal. lia. }
    assert (Hbig : 1024 <= 2 ^ (60 - d)).
    { change 1024 with (2 ^ 10). apply Z.pow_le_mono_r; lia. }
    assert (Hup : Z.pos mz * 2 ^ n <= q + 4).
    { destruct Hq as [_ Hq].
      apply (Z.mul_le_mono_nonneg_r _ _ (2 ^ n)) in Hq; lia. }
    assert (Hcq : Z.pos c * 2 ^ (60 - d) <= (100 * T - 1) * 2 ^ (60 - d))
      by (apply Z.mul_le_mono_nonneg_r; lia).
    assert (Hval : Z.pos mz * 2 ^ n < Z.pos M * 2 ^ (D - d)).
    { rewrite HT'. rewrite Hm128 in Hq100. lia. }
    assert (HP : 0 < 2 ^ (D - d)) by (apply Z.pow_pos_nonneg; lia).
    destruct (Z.compare_spec (d - 53 - 7 + n) (D - 60)) as [He|He|He]; [|done|].
    + replace n with (D - d) in Hval by lia.
      change (Pos.compare_cont Eq mz M) with (mz ?= M)%positive.
      apply Z.mul_lt_mono_pos_r in Hval; [|done].
      destruct (Pos.compare_spec mz M); [lia|done|lia].
    + assert (Hpow : 2 ^ (D - d + 1) <= 2 ^ n) by (apply Z.pow_le_mono_r; lia).
      rewrite Z.pow_add_r in Hpow by lia. change (2 ^ 1) with 2 in Hpow.
      assert (2 ^ 52 * (2 ^ (D - d) * 2) <= Z.pos mz * 2 ^ n)
        by (apply Z.mul_le_mono_nonneg; lia).
      assert (Z.pos M * 2 ^ (D - d) < 2 ^ 53 * 2 ^ (D - d))
        by (apply Z.mul_lt_mono_pos_r; lia).
      lia.
Qed.

(** The two comparisons of [formatRevenue], on whole cents. *)
Lemma whole_cents_compare (c : positive) :
  Z.pos c < 2 ^ 53 ->
  let dollars := num_div (of_Z (Z.pos c)) (of_Z 100) in
  num_ge dollars (of_Z 1000) = (100000 <=? Z.pos c) /\
  num_ge dollars (of_Z 1000000) = (100000000 <=? Z.pos c).
Proof.
  intros Hc dollars. subst dollars.
  replace (of_Z 1000000) with (S754_finite false 8589934592000000 (27 - 60))
    by (by vm_compute).
  replace (of_Z 1000) with (S754_finite false 8796093022208000 (17 - 60))
    by (by vm_compute).
  split.
  - change 100000 with (100 * 1000). apply cents_threshold; lia.
  - change 100000000 with (100 * 1000000). apply cents_threshold; lia.
Qed.

(** X20 (whole cents at the thresholds). For a whole number of cents
    [c] with [0 < c < 2^53], [formatRevenue] takes the [M] form exactly
    when [c >= 100000000], the [K] form exactly when
    [100000 <= c < 100000000] and the plain form exactly when
    [c < 100000]: the division by 100 in binary floating point puts no
    whole amount on the wrong side of $1,000 or $1,000,000. *)
Theorem X20_whole_cent_thresholds (c : Z) :
  0 < c < 2 ^ 53 ->
  let dollars := num_div (of_Z c) (of_Z 100) in
  formatRevenue (VNum (of_Z c))
  = if 100000000 <=? c then
      Ok ("$" +:+ toFixed 1 (num_div dollars (of_Z 1000000)) +:+ "M")
    else if 100000 <=? c then
      Ok ("$" +:+ toFixed 1 (num_div dollars (of_Z 1000)) +:+ "K")
    else Ok ("$" +:+ toLocaleString dollars).
Proof.
  intros Hc dollars. destruct c as [|c|c]; [lia| |lia].
  destruct (whole_cents_compare c ltac:(lia)) as [HK HM]. fold dollars in HK, HM.
  assert (Hd : Z.pos (digits2_pos c) <= 53).
  { pose proof (digits2_pos_bounds c).
    destruct (Z.le_gt_cases (Z.pos (digits2_pos c)) 53) as [|Hgt]; [done|].
    assert (2 ^ 53 <= 2 ^ (Z.pos (digits2_pos c) - 1)) by (apply Z.pow_le_mono_r; lia).
    lia. }
  destruct (of_Z_pos c Hd) as (m & Hm & _).
  assert (Hno : no_revenue (VNum (of_Z (Z.pos c))) = false) by (by rewrite Hm).
  unfold formatRevenue. rewrite Hno. cbn [ToNumber mbind result_bind]. fold dollars.
  rewrite HM, HK. by destruct (100000000 <=? Z.pos c).
Qed.

End WholeCents.

(** * The properties at sample inputs *)

#[local] Existing Instance sample_host.

(** A young entry is returned; a stale one is replaced by the payload of
    the one request made. *)
Lemma C1_cache_ttl_witness :
  let env := reply_env (fun _ => respond 200 "OK" (Ok sample_payload)) in
  let young := cached_world "ios_1_US" (mkEntry (VStr "cached") 2999999000) in
  let stale := cached_world "ios_1_US" (mkEntry (VStr "cached") 0) in
  ((callSensorTowerAPI env sample_endpoint "ios_1" (Some "US") young).1
   = Ok (VStr "cached") /\
   requests (callSensorTowerAPI env sample_endpoint "ios_1" (Some "US") young).2 = []) /\
  ((callSensorTowerAPI env sample_endpoint "ios_1" (Some "US") stale).1
   = Ok sample_payload /\
   requests (callSensorTowerAPI env sample_endpoint "ios_1" (Some "US") stale).2
   = [request_of sample_endpoint (Some "US")]).
Proof.
  intros env young stale. split.
  - assert (Hc : sensorTowerCache young !! finalCacheKey "ios_1" (Some "US")
                 = Some (mkEntry (VStr "cached") 2999999000)) by reflexivity.
    assert (Ht : clock env (clock_reads young)
                 - timestamp (mkEntry (VStr "cached") 2999999000) < CACHE_DURATION)
      by (vm_compute; reflexivity).
    destruct (proj1 (C1_cache_ttl env sample_endpoint "ios_1" (Some "US") young _ Hc) Ht)
      as (Hout & Hreq & _).
    split; [exact Hout|exact Hreq].
  - assert (Hc : sensorTowerCache stale !! finalCacheKey "ios_1" (Some "US")
                 = Some (mkEntry (VStr "cached") 0)) by reflexivity.
    assert (Ht : timestamp (mkEntry (VStr "cached") 0) + CACHE_DURATION
                 <= clock env (clock_reads stale))
      by (vm_compute; discriminate).
    destruct (proj2 (C1_cache_ttl env sample_endpoint "ios_1" (Some "US") stale _ Hc) Ht)
      as (Hreq & Hok).
    split; [|exact Hreq].
    exact (proj1 (Hok {| status := 200; statusText := "OK"; json := Ok sample_payload |}
                      sample_payload eq_refl eq_refl eq_refl)).
Defined.

(** A successful call for [ios_1_US] leaves the entry of [ios_2] alone,
    and a rate-limited call leaves the cache as it was. *)
Lemma C10_cache_frame_witness :
  let served := reply_env (fun _ => respond 200 "OK" (Ok sample_payload)) in
  let limited := reply_env (fun _ => respond 429 "Too Many Requests" (Ok VNull)) in
  let w := cached_world "ios_2" (mkEntry (VStr "other") 2999999000) in
  sensorTowerCache (callSensorTowerAPI served sample_endpoint "ios_1" (Some "US") w).2
    !! "ios_2" = sensorTowerCache w !! "ios_2" /\
  sensorTowerCache (callSensorTowerAPI limited sample_endpoint "ios_1" (Some "US") w).2
  = sensorTowerCache w.
Proof.
  intros served limited w. split.
  - apply (proj1 (C10_cache_frame served sample_endpoint "ios_1" (Some "US") w) "ios_2").
    vm_compute. discriminate.
  - apply (proj2 (C10_cache_frame limited sample_endpoint "ios_1" (Some "US") w)
             (Error rate_limit_message)).
    vm_compute. reflexivity.
Defined.

(** Status 429 gives the rate-limit error as it is; status 500 gives an
    error with another message. *)
Lemma C4_rate_limited_witness :
  let limited := reply_env (fun _ => respond 429 "Too Many Requests" (Ok VNull)) in
  let broken := reply_env (fun _ => respond 500 "Internal Server Error" (Ok VNull)) in
  (callSensorTowerAPI limited sample_endpoint "ios_1" None empty_world).1
  = Throw (Error rate_limit_message) /\
  exists e,
    (callSensorTowerAPI broken sample_endpoint "ios_1" None empty_world).1 = Throw e /\
    err_message e <> rate_limit_message.
Proof.
  intros limited broken. split.
  - refine (proj2 (proj1 (C4_rate_limited limited sample_endpoint "ios_1" None empty_world
                            {| status := 429; statusText := "Too Many Requests";
                               json := Ok VNull |} eq_refl eq_refl) eq_refl)).
  - refine (proj2 (C4_rate_limited broken sample_endpoint "ios_1" None empty_world
                     {| status := 500; statusText := "Internal Server Error";
                        json := Ok VNull |} eq_refl eq_refl) _ eq_refl).
    vm_compute. discriminate.
Defined.

(** Status 500, a rejected request and a body that is no JSON are all
    wrapped. *)
Lemma C7_upstream_error_witness :
  let broken := reply_env (fun _ => respond 500 "Internal Server Error" (Ok VNull)) in
  let offline := reply_env (fun _ => Throw (TypeError "fetch failed")) in
  let garbled := reply_env (fun _ =>
    respond 200 "OK" (Throw (mkError "SyntaxError" "Unexpected end of JSON input"))) in
  (callSensorTowerAPI broken sample_endpoint "ios_1" None empty_world).1
  = Throw (Error "Failed to fetch data from Sensor Tower: HTTP 500: Internal Server Error") /\
  (callSensorTowerAPI offline sample_endpoint "ios_1" None empty_world).1
  = Throw (Error "Failed to fetch data from Sensor Tower: fetch failed") /\
  (callSensorTowerAPI garbled sample_endpoint "ios_1" None empty_world).1
  = Throw (Error "Failed to fetch data from Sensor Tower: Unexpected end of JSON input").
Proof.
  intros broken offline garbled. split; [|split].
  - refine (proj1 (C7_upstream_error broken sample_endpoint "ios_1" None empty_world eq_refl)
              {| status := 500; statusText := "Internal Server Error"; json := Ok VNull |}
              eq_refl _ eq_refl).
    vm_compute. discriminate.
  - exact (proj1 (proj2 (C7_upstream_error offline sample_endpoint "ios_1" None empty_world
                           eq_refl))
             (TypeError "fetch failed") eq_refl).
  - exact (proj2 (proj2 (C7_upstream_error garbled sample_endpoint "ios_1" None empty_world
                           eq_refl))
             {| status := 200; statusText := "OK";
                json := Throw (mkError "SyntaxError" "Unexpected end of JSON input") |}
             (mkError "SyntaxError" "Unexpected end of JSON input")
             eq_refl eq_refl eq_refl).
Defined.

(** C7 as stated fails: a failing status whose reason phrase, and a body
    whose parse error, contain [Rate limit] leave the call unwrapped. *)
Lemma C7_unwrapped_failures :
  let refused := reply_env (fun _ => respond 503 "Rate limit exceeded" (Ok VNull)) in
  let parse_error :=
    mkError "SyntaxError"
      ("Unexpected token 'R', " +:+ dquote +:+ "Rate limit"
       +:+ dquote +:+ "... is not valid JSON") in
  let garbled := reply_env (fun _ => respond 200 "OK" (Throw parse_error)) in
  ((callSensorTowerAPI refused sample_endpoint "ios_1" None empty_world).1
   = Throw (Error "HTTP 503: Rate limit exceeded") /\
   (callSensorTowerAPI refused sample_endpoint "ios_1" None empty_world).1
   <> Throw (Error "Failed to fetch data from Sensor Tower: HTTP 503: Rate limit exceeded")) /\
  ((callSensorTowerAPI garbled sample_endpoint "ios_1" None empty_world).1
   = Throw parse_error /\
   (callSensorTowerAPI garbled sample_endpoint "ios_1" None empty_world).1
   <> Throw (Error ("Failed to fetch data from Sensor Tower: " +:+ err_message parse_error))).
Proof.
  intros refused parse_error garbled.
  split; (split; [vm_compute; reflexivity | vm_compute; discriminate]).
Qed.

(** Three identifiers, the second of which fails: three results in input
    order, two successes and one failure, which carries the message. *)
Example batch_second_fails :
  exists d1 d3,
    (revenue_tool second_fails ios (Many [of_Z 1; of_Z 2; of_Z 3]) true None
       empty_world).1
    = Ok (SummaryContent {|
        total_apps := 3;
        successful := 2;
        failed := 1;
        apps := [EntryOk (of_Z 1) (ExEssential d1);
                 EntryFailed (of_Z 2)
                   "Failed to fetch data from Sensor Tower: HTTP 500: Internal Server Error";
                 EntryOk (of_Z 3) (ExEssential d3)] |}).
Proof. eexists _, _. vm_compute. reflexivity. Qed.

Lemma C2_batch_partial_failure_witness :
  exists s,
    (revenue_tool second_fails ios (Many [of_Z 1; of_Z 2; of_Z 3]) true None
       empty_world).1 = Ok (SummaryContent s) /\
    length (apps s) = 3%nat /\
    apps s !! 1%nat
    = Some (EntryFailed (of_Z 2)
              "Failed to fetch data from Sensor Tower: HTTP 500: Internal Server Error").
Proof.
  destruct (C2_batch_partial_failure second_fails ios true None
              (Many [of_Z 1; of_Z 2; of_Z 3]) empty_world)
    as (s & Hout & Hlen & _ & _ & _ & _ & _ & Hentry).
  exists s. split; [exact Hout|]. split; [exact Hlen|].
  refine (eq_trans (Hentry [of_Z 1] (of_Z 2) [of_Z 3] eq_refl) _). vm_compute. reflexivity.
Defined.

(** The thresholds, on both sides. *)
Example formatRevenue_boundaries :
  formatRevenue (VNum (of_Z 99900)) = Ok "$999" /\
  formatRevenue (VNum (of_Z 100000)) = Ok "$1.0K" /\
  formatRevenue (VNum (of_Z 99999999)) = Ok "$1000.0K" /\
  formatRevenue (VNum (of_Z 100000000)) = Ok "$1.0M".
Proof. repeat split; vm_compute; reflexivity. Qed.

Lemma C3_format_revenue_witness :
  formatRevenue (VNum (of_Z 50000)) = Ok "$500" /\
  formatRevenue (VNum (of_Z 99900))
  = Ok ("$" +:+ toLocaleString (num_div (of_Z 99900) (of_Z 100))) /\
  formatRevenue (VNum (of_Z 2500000))
  = Ok ("$" +:+ toFixed 1 (num_div (num_div (of_Z 2500000) (of_Z 100)) (of_Z 1000)) +:+ "K") /\
  formatRevenue (VNum (of_Z 150000000))
  = Ok ("$" +:+ toFixed 1 (num_div (num_div (of_Z 150000000) (of_Z 100)) (of_Z 1000000))
        +:+ "M") /\
  toFixed 1 (S754_finite false 7036874417766400 (-48))
  = fixed_digits 1 (nearest_scaled 1 7036874417766400 (-48)) /\
  exists e,
    extractEssentialRevenueData sample_payload "ios" (VNum (of_Z 1))
    = Ok (ExEssential e) /\
    last_month_revenue (revenue_metrics e) = VNum (of_Z 2500000) /\
    revenue_formatted (revenue_metrics e) = "$25.0K".
Proof.
  destruct C3_format_revenue as (_ & Hcases & Htenths & H500 & _ & _ & Hrecord).
  split; [exact (H500 eq_refl)|].
  split; [exact (proj1 (Hcases (of_Z 99900) eq_refl) eq_refl)|].
  split; [exact (proj1 (proj2 (Hcases (of_Z 2500000) eq_refl)) eq_refl eq_refl)|].
  split; [exact (proj2 (proj2 (Hcases (of_Z 150000000) eq_refl)) eq_refl)|].
  split; [exact (proj1 (Htenths 7036874417766400%positive (-48) eq_refl eq_refl))|].
  assert (He : { e | extractEssentialRevenueData sample_payload "ios"
                       (VNum (of_Z 1)) = Ok (ExEssential e) })
    by (eexists; vm_compute; reflexivity).
  destruct He as [e He]. exists e. split; [exact He|].
  destruct (Hrecord _ _ _ _ He) as [Hraw Hfmt].
  split; [exact Hraw|].
  vm_compute in Hfmt. injection Hfmt as Hfmt. symmetry. exact Hfmt.
Defined.

(** The number 0 is no payload; the sample payload is extracted in full. *)
Lemma C5_extract_null_safe_witness :
  extractEssentialRevenueData (VNum (of_Z 0)) "ios" (VNum (of_Z 1)) = Ok ExNull /\
  extractEssentialRevenueData sample_payload "ios" (VNum (of_Z 1))
  = Ok match essential_of sample_payload "ios" (VNum (of_Z 1)) with
       | Ok e => ExEssential e
       | Throw error => ExDegraded ("Failed to extract data: " +:+ err_message error) true
       end.
Proof.
  destruct C5_extract_null_safe as (Hfalsy & _ & _ & Htruthy & _).
  split.
  - exact (Hfalsy (VNum (of_Z 0)) "ios" (VNum (of_Z 1)) eq_refl).
  - exact (Htruthy sample_payload "ios" (VNum (of_Z 1)) eq_refl).
Defined.


(** The record of the sample payload holds three competitors for its ten
    related apps and the two prices of its first three purchases. *)
Lemma C8_bounded_lists_witness :
  (exists e ca,
     extractEssentialRevenueData sample_payload "ios" (VNum (of_Z 1))
     = Ok (ExEssential e) /\
     competitive_analysis e = Some ca /\
     top_competitors ca = competitor <$> [related "a"; related "b"; related "c"] /\
     top_iap_prices (monetization e) = [VStr "$0.99"; VStr "$4.99"]) /\
  (exists c1 c2 c3,
     top_competitors_of (get sample_payload "related_apps") = Ok [c1; c2; c3]) /\
  top_competitors_of VUndef = Ok [] /\
  extractTopIAPPrices (get sample_payload "top_in_app_purchases")
  = Ok [VStr "$0.99"; VStr "$4.99"] /\
  VStr "$0.99" ∈ Set_of [VStr "$0.99"; VStr "$4.99"; VStr "$0.99"].
Proof.
  destruct (C8_bounded_lists (reply_env (fun _ => Throw (TypeError "fetch failed"))) ios)
    as (_ & _ & Hten & Habsent & _ & Hprices & Hset & _ & Hbuilt & _).
  split; [|split; [|split; [|split]]].
  - destruct (Hbuilt sample_payload "ios" (VNum (of_Z 1)) "$25.0K" (VArr [])
                (competitor <$> [related "a"; related "b"; related "c"]))
      as (e & ca & He & Hca & Hcs & Hps).
    + reflexivity.
    + vm_compute. reflexivity.
    + vm_compute. reflexivity.
    + vm_compute. reflexivity.
    + exists e, ca. split; [exact He|]. split; [exact Hca|]. split; [exact Hcs|].
      vm_compute in Hps. injection Hps as Hps. symmetry. exact Hps.
  - apply Hten; [reflexivity|]. vm_compute. repeat constructor.
  - exact (Habsent VUndef eq_refl).
  - refine (eq_trans (Hprices (get sample_payload "top_in_app_purchases")
                        [priced "$0.99"; priced "$4.99"; priced "$0.99"; priced "$9.99"]
                        eq_refl eq_refl _) _).
    + vm_compute. repeat constructor.
    + vm_compute. reflexivity.
  - apply (proj1 (proj2 (proj2 (Hset [VStr "$0.99"; VStr "$4.99"; VStr "$0.99"])))
             (VStr "$0.99")).
    apply elem_of_cons. left. reflexivity.
Defined.

(** C8 as stated fails: with a null second entry, ten related apps give
    no competitor and no record but the degraded object, and three
    purchases give no price, not even the first. *)
Lemma C8_null_entry_loses_lists :
  (exists apps,
     get holed_payload "related_apps" = VArr apps /\ length apps = 10%nat /\
     top_competitors_of (VArr apps)
     = Throw (TypeError "Cannot read properties of null (reading 'name')")) /\
  extractEssentialRevenueData holed_payload "ios" (VNum (of_Z 1))
  = Ok (ExDegraded
          "Failed to extract data: Cannot read properties of null (reading 'name')"
          true) /\
  extractTopIAPPrices (get holed_payload "top_in_app_purchases") = Ok [].
Proof.
  split; [|split].
  - eexists. split; [reflexivity|]. split; [reflexivity|]. vm_compute. reflexivity.
  - vm_compute. reflexivity.
  - vm_compute. reflexivity.
Qed.

(** Absent rankings give the empty object; the sample rankings are read
    from the [iphone] bucket; a chart that is absent there is null. *)
Lemma C9_category_rankings_witness :
  extractCategoryRankings VUndef "ios" = Ok NoRankings /\
  extractCategoryRankings (get sample_payload "category_rankings") "ios"
  = Ok (Rankings (VNum (of_Z 7)) VNull VNull) /\
  primary_category (VObj []) "top_paid" = VNull.
Proof.
  destruct C9_category_rankings as (_ & Habsent & Hpresent & Hnull).
  split; [|split].
  - exact (proj1 (Habsent VUndef "ios" eq_refl)).
  - exact (Hpresent (get sample_payload "category_rankings") "ios" eq_refl).
  - apply Hnull. left. reflexivity.
Defined.

(** C9 as stated fails: with the rankings absent, the returned object has
    no [top_free], which reads as undefined, not as null. *)
Lemma C9_absent_rankings_not_null :
  extractCategoryRankings VUndef "ios" = Ok NoRankings /\
  ranking NoRankings "top_free" = VUndef /\
  ranking NoRankings "top_free" <> VNull.
Proof. repeat split. discriminate. Qed.

(** * The further properties at sample inputs *)

Lemma X1_second_call_is_served_from_cache_witness :
  let w1 := (callSensorTowerAPI served sample_endpoint "ios_1" (Some "US") empty_world).2 in
  (callSensorTowerAPI served "https://elsewhere.example" "ios_1" (Some "US") w1).1
  = Ok sample_payload /\
  requests (callSensorTowerAPI served "https://elsewhere.example" "ios_1" (Some "US") w1).2
  = requests w1.
Proof.
  intros w1.
  assert (Hcall : callSensorTowerAPI served sample_endpoint "ios_1" (Some "US") empty_world
                  = (Ok sample_payload, w1)) by (vm_compute; reflexivity).
  assert (Hyoung : forall entry,
            sensorTowerCache w1 !! finalCacheKey "ios_1" (Some "US") = Some entry ->
            clock served (clock_reads w1) < timestamp entry + CACHE_DURATION).
  { intros entry Hentry. vm_compute in Hentry. injection Hentry as <-.
    vm_compute. reflexivity. }
  destruct (X1_second_call_is_served_from_cache served sample_endpoint
              "https://elsewhere.example" "ios_1" (Some "US") empty_world
              sample_payload w1 Hcall Hyoung) as (Hout & Hreq & _).
  split; [exact Hout|exact Hreq].
Defined.

Lemma X2_failure_is_not_cached_witness :
  let w1 := (callSensorTowerAPI broken sample_endpoint "ios_1" None empty_world).2 in
  sensorTowerCache w1 !! "ios_1" = None /\
  requests (callSensorTowerAPI broken sample_endpoint "ios_1" None w1).2
  = [request_of sample_endpoint None; request_of sample_endpoint None].
Proof.
  intros w1.
  assert (Hcall : callSensorTowerAPI broken sample_endpoint "ios_1" None empty_world
                  = (Throw (Error (wrap_prefix +:+ "HTTP 500: Internal Server Error")), w1))
    by (vm_compute; reflexivity).
  destruct (X2_failure_is_not_cached broken sample_endpoint "ios_1" None empty_world
              _ w1 eq_refl Hcall) as (Hnone & _ & Hreq).
  split; [exact Hnone|exact Hreq].
Defined.

Lemma X4_thrown_errors_are_classified_witness :
  includes "Rate limit" (wrap_prefix +:+ "HTTP 500: Internal Server Error") = true \/
  (err_name (Error (wrap_prefix +:+ "HTTP 500: Internal Server Error")) = "Error" /\
   exists msg, wrap_prefix +:+ "HTTP 500: Internal Server Error" = wrap_prefix +:+ msg).
Proof.
  apply (X4_thrown_errors_are_classified broken sample_endpoint "ios_1" None empty_world
           (Error (wrap_prefix +:+ "HTTP 500: Internal Server Error"))).
  vm_compute. reflexivity.
Defined.

Lemma X5_timestamps_are_past_readings_witness :
  let w1 := (callSensorTowerAPI served sample_endpoint "ios_1" None empty_world).2 in
  stamped served w1 /\
  0 <= clock served (clock_reads w1) - timestamp (mkEntry sample_payload 3000000000).
Proof.
  intros w1.
  assert (Hempty : stamped served empty_world).
  { intros k e He. vm_compute in He. discriminate He. }
  assert (Hmono : monotone_clock served).
  { intros m n Hmn. unfold served, reply_env, sample_clock. cbn. lia. }
  destruct (X5_timestamps_are_past_readings served sample_endpoint "ios_1" None
              empty_world Hempty) as (Hstamped & Hage).
  split; [exact Hstamped|].
  apply (Hage Hmono "ios_1"). vm_compute. reflexivity.
Defined.

Lemma X6_batch_requests_witness :
  exists new,
    requests (revenue_tool second_fails ios (Many [of_Z 1; of_Z 2; of_Z 3]) true None empty_world).2
    = new /\
    (length new <= 3)%nat /\
    forall r, r ∈ new -> method r = "GET".
Proof.
  destruct (X6_batch_requests second_fails ios (Many [of_Z 1; of_Z 2; of_Z 3]) true None empty_world)
    as (new & Hreq & Hlen & Hnew).
  exists new. split; [exact Hreq|]. split; [exact Hlen|].
  intros r Hr. exact (proj1 (Hnew r Hr)).
Defined.

Lemma X7_batch_fills_cache_witness :
  is_Some (sensorTowerCache
             (revenue_tool second_fails ios (Many [of_Z 1; of_Z 2; of_Z 3]) true None empty_world).2
           !! "ios_3").
Proof.
  assert (He : { s | (revenue_tool second_fails ios (Many [of_Z 1; of_Z 2; of_Z 3]) true None
                        empty_world).1 = Ok (SummaryContent s) })
    by (eexists; vm_compute; reflexivity).
  destruct He as [s Hs].
  assert (Hd : { d | apps s !! 2%nat = Some (EntryOk (of_Z 3) d) }).
  { vm_compute in Hs. injection Hs as <-. eexists. reflexivity. }
  destruct Hd as [d Hd].
  apply (proj2 (X7_batch_fills_cache second_fails ios (Many [of_Z 1; of_Z 2; of_Z 3]) true None
                  empty_world) s (of_Z 3) d Hs).
  apply (list_elem_of_lookup_2 _ 2%nat). exact Hd.
Defined.

Lemma X8_falsy_payload_witness :
  (process_one answers_null ios true None (of_Z 1) empty_world).1 = Ok (EntryOk (of_Z 1) ExNull) /\
  (process_one answers_null ios false None (of_Z 1) empty_world).1
  = Ok (EntryFailed (of_Z 1) "Cannot read properties of null (reading 'competitive_analysis')").
Proof.
  destruct (X8_falsy_payload answers_null ios None (of_Z 1) empty_world VNull
              (callSensorTowerAPI answers_null (endpoint_of ios (of_Z 1)) (cacheKey_of ios (of_Z 1))
                 None empty_world).2) as [Hwith Hwithout].
  - vm_compute. reflexivity.
  - reflexivity.
  - split; [by rewrite Hwith|by rewrite Hwithout].
Defined.

Lemma X10_identifier_fallback_witness :
  exists e,
    extractEssentialRevenueData (VObj []) "android" (VStr "com.example.app")
    = Ok (ExEssential e) /\
    app_info_id (app_info e) = VStr "com.example.app".
Proof.
  assert (He : { e | extractEssentialRevenueData (VObj []) "android"
                       (VStr "com.example.app") = Ok (ExEssential e) })
    by (eexists; vm_compute; reflexivity).
  destruct He as [e He]. exists e. split; [exact He|].
  refine (proj2 (proj2 (X10_identifier_fallback (VObj []))) "android"
            (VStr "com.example.app") e _ He).
  vm_compute. discriminate.
Defined.

Lemma X11_null_competitor_degrades_witness :
  exists error,
    extractEssentialRevenueData null_competitor_payload "ios" (VNum (of_Z 1))
    = Ok (ExDegraded error true).
Proof.
  destruct (X11_null_competitor_degrades null_competitor_payload "ios" (VNum (of_Z 1))
              [related "a"; VNull; related "c"] eq_refl) as (error & Herr & _).
  - apply Exists_cons_tl, Exists_cons_hd. reflexivity.
  - reflexivity.
  - exists error. exact Herr.
Defined.

Lemma X12_top_countries_bounded_witness :
  exists e,
    extractEssentialRevenueData countries_payload "android" (VStr "com.example.app")
    = Ok (ExEssential e) /\
    top_countries (market_position e) = VArr [VStr "US"; VStr "JP"; VStr "DE"].
Proof.
  assert (He : { e | extractEssentialRevenueData countries_payload "android"
                       (VStr "com.example.app") = Ok (ExEssential e) })
    by (eexists; vm_compute; reflexivity).
  destruct He as [e He]. exists e. split; [exact He|].
  exact (proj1 (X12_top_countries_bounded countries_payload "android"
                  (VStr "com.example.app") e He)
           [VStr "US"; VStr "JP"; VStr "DE"; VStr "FR"; VStr "TR"] eq_refl).
Defined.

Lemma X13_malformed_purchases_give_no_price_witness :
  extractTopIAPPrices VNull = Ok [] /\
  extractTopIAPPrices (VObj [("TR", VArr [priced "9,99"])]) = Ok [] /\
  extractTopIAPPrices (VObj [("US", VStr "$0.99")]) = Ok [] /\
  extractTopIAPPrices (VObj [("US", VArr [priced "$0.99"; VNull; priced "$4.99"])]) = Ok [].
Proof.
  split; [|split; [|split]].
  - exact (proj1 (X13_malformed_purchases_give_no_price VNull) eq_refl).
  - exact (proj1 (proj2 (X13_malformed_purchases_give_no_price
                           (VObj [("TR", VArr [priced "9,99"])]))) eq_refl).
  - apply (proj1 (proj2 (proj2 (X13_malformed_purchases_give_no_price
                                  (VObj [("US", VStr "$0.99")]))))).
    intros us Hus. vm_compute in Hus. discriminate Hus.
  - apply (proj2 (proj2 (proj2 (X13_malformed_purchases_give_no_price
                                  (VObj [("US", VArr [priced "$0.99"; VNull;
                                                      priced "$4.99"])]))))
             [priced "$0.99"; VNull; priced "$4.99"] eq_refl).
    apply Exists_cons_tl, Exists_cons_hd. reflexivity.
Defined.

Lemma X14_one_decimal_witness :
  formatRevenue (VNum (of_Z 2500000)) = Ok "$25.0K" /\
  formatRevenue (VNum (of_Z 150000000)) = Ok "$1.5M".
Proof.
  split.
  - refine (eq_trans (proj1 (X14_one_decimal (of_Z 2500000) 7036874417766400 (-48)
                               eq_refl eq_refl) eq_refl eq_refl _) _);
      vm_compute; reflexivity.
  - refine (eq_trans (proj2 (X14_one_decimal (of_Z 150000000) 6755399441055744 (-52)
                               eq_refl eq_refl) eq_refl _) _);
      vm_compute; reflexivity.
Defined.

Lemma X15_batch_frame_witness :
  let w := cached_world "android_com.whatsapp" (mkEntry (VStr "kept") 2999999000) in
  sensorTowerCache (revenue_tool served ios (Many [of_Z 1; of_Z 2]) true None w).2
    !! "android_com.whatsapp"
  = Some (mkEntry (VStr "kept") 2999999000).
Proof.
  intros w.
  refine (eq_trans (X15_batch_frame served ios (Many [of_Z 1; of_Z 2]) true None w
                      "android_com.whatsapp" _) _).
  - intros i Hi. apply elem_of_cons in Hi as [->|Hi].
    + vm_compute. discriminate.
    + apply list_elem_of_singleton in Hi as ->. vm_compute. discriminate.
  - reflexivity.
Defined.

Lemma X17_outage_witness :
  requests (revenue_tool broken ios (Many [of_Z 1; of_Z 1; of_Z 2]) true None empty_world).2
  = [request_of (endpoint_of ios (of_Z 1)) None; request_of (endpoint_of ios (of_Z 1)) None;
     request_of (endpoint_of ios (of_Z 2)) None] /\
  sensorTowerCache (revenue_tool broken ios (Many [of_Z 1; of_Z 1; of_Z 2]) true None empty_world).2 = ∅.
Proof.
  assert (Hdown : forall n req, exists e, settle (network broken n req) = Throw e).
  { intros n req. eexists. reflexivity. }
  assert (Hcold : forall i, i ∈ as_array (Many [of_Z 1; of_Z 1; of_Z 2]) ->
            sensorTowerCache empty_world !! finalCacheKey (cacheKey_of ios i) None = None).
  { intros i _. apply lookup_empty. }
  destruct (X17_outage broken ios true None (Many [of_Z 1; of_Z 1; of_Z 2]) empty_world Hdown Hcold)
    as (Hreq & Hcache & _).
  split; [exact Hreq|exact Hcache].
Defined.

Lemma X18_warm_cache_witness :
  requests (revenue_tool broken ios (Many [of_Z 1; of_Z 2]) true None warm_world).2 = [] /\
  sensorTowerCache (revenue_tool broken ios (Many [of_Z 1; of_Z 2]) true None warm_world).2
  = sensorTowerCache warm_world.
Proof.
  assert (Hwarm : forall i, i ∈ as_array (Many [of_Z 1; of_Z 2]) ->
            exists entry,
              sensorTowerCache warm_world !! finalCacheKey (cacheKey_of ios i) None
              = Some entry /\
              forall n,
                (clock_reads warm_world <= n
                 < clock_reads warm_world + length (as_array (Many [of_Z 1; of_Z 2])))%nat ->
                clock broken n - timestamp entry < CACHE_DURATION).
  { intros i Hi. apply elem_of_cons in Hi as [->|Hi];
      [|apply list_elem_of_singleton in Hi as ->];
      (eexists; split; [reflexivity|]);
      intros n Hn; cbn in Hn; unfold broken, reply_env, sample_clock, CACHE_DURATION;
      cbn; lia. }
  destruct (X18_warm_cache broken ios true None (Many [of_Z 1; of_Z 2]) warm_world Hwarm)
    as (Hreq & Hcache & _).
  split; [exact Hreq|exact Hcache].
Defined.

Lemma X19_non_object_payload_witness :
  extractEssentialRevenueData (VArr []) "ios" (VNum (of_Z 1))
  = extractEssentialRevenueData (VObj []) "ios" (VNum (of_Z 1)).
Proof.
  apply X19_non_object_payload; [reflexivity|]. intros props Hprops. discriminate Hprops.
Defined.


(** 99999 cents: below the first threshold. *)
Lemma X20_whole_cent_thresholds_witness :
  0 < 99999 < 2 ^ 53 /\
  formatRevenue (VNum (of_Z 99999))
  = Ok ("$" +:+ toLocaleString (num_div (of_Z 99999) (of_Z 100))).
Proof. split; [lia|]. apply (X20_whole_cent_thresholds 99999). lia. Defined.
